(** * ChatScreen: the in-ride chat screen's event handling

    A shallow embedding of the event-handling logic of
    [src/screens/ride/ChatScreen.tsx]: the four socket listeners
    ([onChatMessage], [onChatHistory], [onTypingIndicator], [onMessagesRead]),
    the history request with its ten-second timeout ([loadChatHistory]), and
    the two input handlers ([handleTyping], [handleSendMessage]).

    The component's React state and its one ref are a record; a handler is a
    function from that record to a new record together with the list of
    outbound calls it made (socket emits and the notification helper), in
    the order it made them.  [setTimeout]/[clearTimeout] are modelled by a
    queue of pending timers over a logical clock in milliseconds. *)

From Stdlib Require Import String Ascii NArith ZArith Arith Bool Lia List.
Import ListNotations.

Set Implicit Arguments.

(** ** JavaScript strings *)

(** A JavaScript string is a sequence of UTF-16 code units; [length] counts
    code units, as [text.length] does. *)
Definition JSString : Type := list N.

(** An ASCII literal as a JavaScript string. *)
Definition js (s : string) : JSString :=
  map N_of_ascii (list_ascii_of_string s).

(** Truthiness of a string: every string but the empty one. *)
Definition truthy (s : JSString) : bool :=
  match s with
  | [] => false
  | _ :: _ => true
  end.

(** [a || b] on strings. *)
Definition orElse (a : option JSString) (b : JSString) : JSString :=
  match a with
  | Some s => if truthy s then s else b
  | None => b
  end.

(** The code units [String.prototype.trim] strips: ECMAScript's WhiteSpace
    and LineTerminator productions. *)
Definition isWhiteSpace (c : N) : bool :=
  ((9 <=? c) && (c <=? 13) || (c =? 32) || (c =? 160) || (c =? 5760)
   || (8192 <=? c) && (c <=? 8202) || (c =? 8232) || (c =? 8233)
   || (c =? 8239) || (c =? 8287) || (c =? 12288) || (c =? 65279))%N.

Fixpoint trimStart (s : JSString) : JSString :=
  match s with
  | [] => []
  | c :: rest => if isWhiteSpace c then trimStart rest else s
  end.

Definition trimEnd (s : JSString) : JSString := rev (trimStart (rev s)).

Definition trim (s : JSString) : JSString := trimEnd (trimStart s).

(** Empty or made of white space only. *)
Definition blank (s : JSString) : bool := forallb isWhiteSpace s.

(** [a === b] on strings: the same code units. *)
Fixpoint strEq (a b : JSString) : bool :=
  match a, b with
  | [], [] => true
  | x :: a', y :: b' => (x =? y)%N && strEq a' b'
  | _, _ => false
  end.

(** [n.toString()] and [`${n}`] for a non-negative integer: its decimal
    digits. *)
Fixpoint uintCodes (u : Decimal.uint) : JSString :=
  match u with
  | Decimal.Nil => []
  | Decimal.D0 r => 48%N :: uintCodes r
  | Decimal.D1 r => 49%N :: uintCodes r
  | Decimal.D2 r => 50%N :: uintCodes r
  | Decimal.D3 r => 51%N :: uintCodes r
  | Decimal.D4 r => 52%N :: uintCodes r
  | Decimal.D5 r => 53%N :: uintCodes r
  | Decimal.D6 r => 54%N :: uintCodes r
  | Decimal.D7 r => 55%N :: uintCodes r
  | Decimal.D8 r => 56%N :: uintCodes r
  | Decimal.D9 r => 57%N :: uintCodes r
  end.

Definition numberToString (n : N) : JSString := uintCodes (N.to_uint n).

(** [s.padStart(target, pad)] for a pad string of one code unit. *)
Definition padStart (target : nat) (pad : N) (s : JSString) : JSString :=
  repeat pad (target - length s) ++ s.

(** [xs.pop()] on a fresh array: its last element, if any. *)
Fixpoint pop {A} (xs : list A) : option A :=
  match xs with
  | [] => None
  | [x] => Some x
  | _ :: rest => pop rest
  end.

(** ** Data model *)

(** [senderType: 'user' | 'driver'] *)
Inductive SenderType : Type := user | driver.

Definition SenderType_eqb (a b : SenderType) : bool :=
  match a, b with
  | user, user | driver, driver => true
  | _, _ => false
  end.

Module ChatMessage.
(** [interface ChatMessage] *)
Record t : Type := Build {
  id : JSString;
  rideId : JSString;
  senderId : JSString;
  senderType : SenderType;
  message : JSString;
  timestamp : JSString;
  isRead : bool
}.

(** [{ ...msg, isRead: b }] *)
Definition withIsRead (b : bool) (msg : t) : t :=
  Build (id msg) (rideId msg) (senderId msg) (senderType msg)
        (message msg) (timestamp msg) b.
End ChatMessage.

Module ChatHistory.
(** Payload of the [chat_history] event; [messages] may be missing. *)
Record t : Type := Build { messages : option (list ChatMessage.t) }.
End ChatHistory.

Module TypingIndicator.
Record t : Type := Build { senderType : SenderType; isTyping : bool }.
End TypingIndicator.

Module MessagesRead.
(** Payload of the [messages_read] event; the handler only logs it. *)
Record t : Type := Build { rideId : JSString; readerType : SenderType }.
End MessagesRead.

(** Outbound calls: the five socket emits of [utils/socket] and the
    notification helper, each with the fields the screen passes. *)
Inductive Command : Type :=
| sendChatMessage (rideId senderId : JSString) (senderType : SenderType)
                  (message : JSString)
| getChatHistory (rideId requesterId : JSString) (requesterType : SenderType)
| markMessagesAsRead (rideId readerId : JSString) (readerType : SenderType)
| sendTypingStart (rideId senderId : JSString) (senderType : SenderType)
| sendTypingStop (rideId senderId : JSString) (senderType : SenderType)
| sendChatNotificationToCurrentUser
    (rideId senderId senderName message messageType priority sound : JSString)
    (badge : N).

Definition isNotification (c : Command) : bool :=
  match c with sendChatNotificationToCurrentUser _ _ _ _ _ _ _ _ => true | _ => false end.
Definition isMarkRead (c : Command) : bool :=
  match c with markMessagesAsRead _ _ _ => true | _ => false end.
Definition isSendMessage (c : Command) : bool :=
  match c with sendChatMessage _ _ _ _ => true | _ => false end.
Definition isTypingStart (c : Command) : bool :=
  match c with sendTypingStart _ _ _ => true | _ => false end.
Definition isTypingStop (c : Command) : bool :=
  match c with sendTypingStop _ _ _ => true | _ => false end.

(** Number of calls of one kind in a list of outbound calls. *)
Definition count (p : Command -> bool) (cs : list Command) : nat :=
  length (filter p cs).

(** ** Timers *)

(** The two closures the screen hands to [setTimeout], with what each one
    captured when it was created. *)
Inductive Callback : Type :=
| historyTimeout (isLoading : bool)
    (* loadChatHistory: [if (isLoading) setIsLoading(false)], with the
       [isLoading] of the render that created [loadChatHistory] *)
| typingStop (userId rideId : JSString).
    (* handleTyping: [if (userId && rideId) sendTypingStop(...)] *)

Record Timer : Type := mkTimer {
  handle : nat;
  due : N;
  callback : Callback
}.

Definition isTypingTimer (t : Timer) : bool :=
  match callback t with typingStop _ _ => true | historyTimeout _ => false end.

(** Pending timers are kept in firing order: by due time, and among equal
    due times by the order they were set. *)
Fixpoint enqueue (t : Timer) (q : list Timer) : list Timer :=
  match q with
  | [] => [t]
  | u :: rest => if (due t <? due u)%N then t :: q else u :: enqueue t rest
  end.

(** ** The ride summary screen's feedback tags *)

Module RideSummaryScreen.

(** [selectedTags.includes(tag)] *)
Definition includes (selectedTags : list JSString) (tag : JSString) : bool :=
  existsb (strEq tag) selectedTags.

(** [handleTagToggle]: the next value of [selectedTags]. *)
Definition handleTagToggle (tag : JSString) (selectedTags : list JSString)
  : list JSString :=
  if includes selectedTags tag
  then filter (fun t => negb (strEq t tag)) selectedTags
  else selectedTags ++ [tag].

End RideSummaryScreen.

(** ** Dates *)

(** What [formatTimestamp] reads off a [Date]: the epoch milliseconds and the
    local hour and minute.  Only a valid date is described, with the hour
    below 24 and the minute below 60. *)
Module Date.
Record t : Type := Build { getTime : Z; getHours : N; getMinutes : N }.
End Date.

(** ** The screen's state *)

Module ChatScreen.

(** [useState]/[useRef] cells and the values taken from props and hooks,
    followed by the timer runtime. *)
Record Screen : Type := mkScreen {
  messages : list ChatMessage.t;
  newMessage : JSString;
  isDriverTyping : bool;
  isLoading : bool;
  userId : JSString;
  rideId : JSString;                 (* ride?.rideId || '' *)
  driverName : option JSString;      (* driver?.name *)
  typingTimeoutRef : option nat;     (* a timer handle is never falsy *)
  now : N;
  pending : list Timer;
  nextHandle : nat
}.

Definition setMessages (f : list ChatMessage.t -> list ChatMessage.t) (s : Screen) :=
  mkScreen (f (messages s)) (newMessage s) (isDriverTyping s) (isLoading s)
           (userId s) (rideId s) (driverName s) (typingTimeoutRef s)
           (now s) (pending s) (nextHandle s).
Definition setNewMessage (v : JSString) (s : Screen) :=
  mkScreen (messages s) v (isDriverTyping s) (isLoading s)
           (userId s) (rideId s) (driverName s) (typingTimeoutRef s)
           (now s) (pending s) (nextHandle s).
Definition setIsDriverTyping (v : bool) (s : Screen) :=
  mkScreen (messages s) (newMessage s) v (isLoading s)
           (userId s) (rideId s) (driverName s) (typingTimeoutRef s)
           (now s) (pending s) (nextHandle s).
Definition setIsLoading (v : bool) (s : Screen) :=
  mkScreen (messages s) (newMessage s) (isDriverTyping s) v
           (userId s) (rideId s) (driverName s) (typingTimeoutRef s)
           (now s) (pending s) (nextHandle s).
Definition setTypingTimeoutRef (v : option nat) (s : Screen) :=
  mkScreen (messages s) (newMessage s) (isDriverTyping s) (isLoading s)
           (userId s) (rideId s) (driverName s) v
           (now s) (pending s) (nextHandle s).
Definition setRuntime (t : N) (q : list Timer) (n : nat) (s : Screen) :=
  mkScreen (messages s) (newMessage s) (isDriverTyping s) (isLoading s)
           (userId s) (rideId s) (driverName s) (typingTimeoutRef s)
           t q n.

(** ** Handlers as state transformers that log their outbound calls *)

Definition Eff (A : Type) : Type := Screen -> A * Screen * list Command.

Definition ret {A} (a : A) : Eff A := fun s => (a, s, []).

Definition bind {A B} (m : Eff A) (k : A -> Eff B) : Eff B :=
  fun s =>
    let '(a, s1, c1) := m s in
    let '(b, s2, c2) := k a s1 in
    (b, s2, c1 ++ c2).

Declare Scope eff_scope.
Delimit Scope eff_scope with eff.
Notation "x <- m ;; k" := (bind m (fun x => k))
  (at level 61, m at next level, right associativity) : eff_scope.
Notation "m ;; k" := (bind m (fun _ => k))
  (at level 61, right associativity) : eff_scope.
Open Scope eff_scope.

Definition gets {A} (f : Screen -> A) : Eff A := fun s => (f s, s, []).
Definition modify (f : Screen -> Screen) : Eff unit := fun s => (tt, f s, []).
Definition emit (c : Command) : Eff unit := fun s => (tt, s, [c]).
Definition when (b : bool) (m : Eff unit) : Eff unit := if b then m else ret tt.

(** State and outbound calls after running [m] from [s]. *)
Definition exec {A} (m : Eff A) (s : Screen) : Screen := snd (fst (m s)).
Definition emitted {A} (m : Eff A) (s : Screen) : list Command := snd (m s).

(** [setTimeout(cb, delay)]: a fresh handle, the timer queued at
    [now + delay]. *)
Definition setTimeout (cb : Callback) (delay : N) : Eff nat :=
  fun s =>
    let h := nextHandle s in
    (h, setRuntime (now s) (enqueue (mkTimer h (now s + delay) cb) (pending s)) (S h) s, []).

(** [clearTimeout(h)] *)
Definition clearTimeout (h : nat) : Eff unit :=
  modify (fun s =>
    setRuntime (now s) (filter (fun t => negb (handle t =? h)) (pending s)) (nextHandle s) s).

(** *** Socket listeners *)

Definition onChatMessage (message : ChatMessage.t) : Eff unit :=
  modify (setMessages (fun prev => prev ++ [message])) ;;
  when (SenderType_eqb (ChatMessage.senderType message) driver)
    (name <- gets driverName ;;
     uid <- gets userId ;;
     emit (sendChatNotificationToCurrentUser
             (ChatMessage.rideId message) (ChatMessage.senderId message)
             (orElse name (js "Pilot")) (ChatMessage.message message)
             (js "text") (js "high") (js "default") 1) ;;
     emit (markMessagesAsRead (ChatMessage.rideId message) uid user)).

Definition onChatHistory (data : option ChatHistory.t) : Eff unit :=
  match data with
  | Some {| ChatHistory.messages := Some ms |} => modify (setMessages (fun _ => ms))
  | _ => modify (setMessages (fun _ => []))
  end ;;
  modify (setIsLoading false).

Definition onTypingIndicator (data : TypingIndicator.t) : Eff unit :=
  when (SenderType_eqb (TypingIndicator.senderType data) driver)
    (modify (setIsDriverTyping (TypingIndicator.isTyping data))).

Definition onMessagesRead (data : MessagesRead.t) : Eff unit :=
  modify (setMessages (map (fun msg =>
    ChatMessage.withIsRead
      (if SenderType_eqb (ChatMessage.senderType msg) user
       then true else ChatMessage.isRead msg)
      msg))).

(** *** History request *)

(** The timeout closure tests the [isLoading] it captured, that of the
    render whose effect calls [loadChatHistory], not the flag's value when
    the timer fires. *)
Definition loadChatHistory : Eff unit :=
  uid <- gets userId ;;
  rid <- gets rideId ;;
  if truthy uid && truthy rid then
    emit (getChatHistory rid uid user) ;;
    loading <- gets isLoading ;;
    _ <- setTimeout (historyTimeout loading) 10000 ;;
    ret tt
  else
    modify (setIsLoading false).

(** The body of the effect that wires the screen up, past its guards on
    [userId] and [rideId]; the listeners above are the ones it registers. *)
Definition setupChat : Eff unit :=
  uid <- gets userId ;;
  rid <- gets rideId ;;
  when (truthy uid && truthy rid) loadChatHistory.

(** *** Input handlers *)

Definition handleSendMessage : Eff unit :=
  text <- gets newMessage ;;
  uid <- gets userId ;;
  rid <- gets rideId ;;
  when (truthy (trim text) && truthy uid && truthy rid)
    (emit (sendChatMessage rid uid user (trim text)) ;;
     modify (setNewMessage []) ;;
     emit (sendTypingStop rid uid user) ;;
     ref <- gets typingTimeoutRef ;;
     match ref with
     | Some h => clearTimeout h ;; modify (setTypingTimeoutRef None)
     | None => ret tt
     end).

Definition handleTyping (text : JSString) : Eff unit :=
  modify (setNewMessage text) ;;
  uid <- gets userId ;;
  rid <- gets rideId ;;
  when ((length text =? 1) && truthy uid && truthy rid)
    (emit (sendTypingStart rid uid user)) ;;
  ref <- gets typingTimeoutRef ;;
  match ref with
  | Some h => clearTimeout h
  | None => ret tt
  end ;;
  h <- setTimeout (typingStop uid rid) 1000 ;;
  modify (setTypingTimeoutRef (Some h)).

(** *** Timer callbacks and the passage of time *)

Definition runCallback (cb : Callback) : Eff unit :=
  match cb with
  | historyTimeout loading => when loading (modify (setIsLoading false))
  | typingStop uid rid =>
      when (truthy uid && truthy rid) (emit (sendTypingStop rid uid user))
  end.

Fixpoint runCallbacks (ts : list Timer) : Eff unit :=
  match ts with
  | [] => ret tt
  | t :: rest => runCallback (callback t) ;; runCallbacks rest
  end.

Definition isDue (t : N) (x : Timer) : bool := (due x <=? t)%N.

(** [dt] milliseconds pass with no other event: every timer that comes due
    is removed from the queue and its callback run, in firing order. *)
Definition elapse (dt : N) : Eff unit :=
  fun s =>
    let t := (now s + dt)%N in
    runCallbacks (filter (isDue t) (pending s))
      (setRuntime t (filter (fun x => negb (isDue t x)) (pending s)) (nextHandle s) s).

(** *** The event loop *)

Inductive Event : Type :=
| Mounted                                       (* the wiring effect runs *)
| ChatMessageEvent (message : ChatMessage.t)    (* chat_message *)
| ChatHistoryEvent (data : option ChatHistory.t) (* chat_history *)
| TypingIndicatorEvent (data : TypingIndicator.t)
| MessagesReadEvent (data : MessagesRead.t)
| ChangeText (text : JSString)                  (* onChangeText *)
| PressSend                                     (* onPress / onSubmitEditing *)
| Elapse (dt : N).

Definition dispatch (e : Event) : Eff unit :=
  match e with
  | Mounted => setupChat
  | ChatMessageEvent m => onChatMessage m
  | ChatHistoryEvent d => onChatHistory d
  | TypingIndicatorEvent d => onTypingIndicator d
  | MessagesReadEvent d => onMessagesRead d
  | ChangeText text => handleTyping text
  | PressSend => handleSendMessage
  | Elapse dt => elapse dt
  end.

(** Handlers run to completion, one event after the other. *)
Fixpoint run (es : list Event) : Eff unit :=
  match es with
  | [] => ret tt
  | e :: rest => dispatch e ;; run rest
  end.

(** The screen when it is first rendered for user [uid] on ride [rid]. *)
Definition initial (uid rid : JSString) (name : option JSString) : Screen :=
  mkScreen [] [] false true uid rid name None 0 [] 1.

(** ** The rest of the screen *)

(** The cleanup the wiring effect returns. *)
Definition cleanupListeners : Eff unit :=
  ref <- gets typingTimeoutRef ;;
  match ref with
  | Some h => clearTimeout h ;; modify (setTypingTimeoutRef None)
  | None => ret tt
  end.

(** The body of [handleSendMessage] for the [newMessage] its closure holds. *)
Definition sendDraft (text : JSString) : Eff unit :=
  uid <- gets userId ;;
  rid <- gets rideId ;;
  when (truthy (trim text) && truthy uid && truthy rid)
    (emit (sendChatMessage rid uid user (trim text)) ;;
     modify (setNewMessage []) ;;
     emit (sendTypingStop rid uid user) ;;
     ref <- gets typingTimeoutRef ;;
     match ref with
     | Some h => clearTimeout h ;; modify (setTypingTimeoutRef None)
     | None => ret tt
     end).

(** [handleQuickReply]: [setNewMessage(reply)] is queued, then
    [handleSendMessage()] runs in the same render, so the [newMessage] it
    tests and sends is the one from before the tap; its own
    [setNewMessage('')] is queued after the reply. *)
Definition handleQuickReply (reply : JSString) : Eff unit :=
  text <- gets newMessage ;;
  modify (setNewMessage reply) ;;
  sendDraft text.

(** The header's test button. *)
Definition testNotification : Eff unit :=
  ms <- gets messages ;;
  rid <- gets rideId ;;
  name <- gets driverName ;;
  emit (sendChatNotificationToCurrentUser
          rid (js "test-pilot-123") (orElse name (js "Test Pilot"))
          (orElse
             (option_map ChatMessage.message
                (pop (filter (fun m => SenderType_eqb (ChatMessage.senderType m) driver) ms)))
             (js "I'm on my way to your pickup location"))
          (js "text") (js "high") (js "default") 1).

(** [formatTimestamp], for the valid [date] its argument parses to and the
    epoch milliseconds [nowTime] of [new Date()]. *)
Definition formatTimestamp (date : Date.t) (nowTime : Z) : JSString :=
  let diffInMs := (nowTime - Date.getTime date)%Z in
  let diffInMins := (diffInMs / 60000)%Z in
  if (diffInMins <? 1)%Z then js "Just now"
  else if (diffInMins <? 60)%Z then numberToString (Z.to_N diffInMins) ++ js "m ago"
  else
    let hours := Date.getHours date in
    let mins := Date.getMinutes date in
    let ampm := if (12 <=? hours)%N then js "PM" else js "AM" in
    let displayHours := if (hours mod 12 =? 0)%N then 12%N else (hours mod 12)%N in
    numberToString displayHours ++ js ":" ++ padStart 2 48 (numberToString mins)
      ++ js " " ++ ampm.

(** ** What the claims are stated with *)

(** The messages a [chat_history] payload carries; none when the payload or
    its [messages] field is missing. *)
Definition snapshotMessages (data : option ChatHistory.t) : list ChatMessage.t :=
  match data with
  | Some d => match ChatHistory.messages d with Some ms => ms | None => [] end
  | None => []
  end.

Definition ids (log : list ChatMessage.t) : list JSString := map ChatMessage.id log.

(** Position by position, a message that was read is still there, with the
    same id, and still read. *)
Definition keepsRead (before after : list ChatMessage.t) : Prop :=
  forall i m,
    nth_error before i = Some m -> ChatMessage.isRead m = true ->
    exists m', nth_error after i = Some m'
               /\ ChatMessage.id m' = ChatMessage.id m
               /\ ChatMessage.isRead m' = true.

(** Everything but the read flag agrees. *)
Definition sameButRead (a b : ChatMessage.t) : Prop :=
  ChatMessage.id a = ChatMessage.id b
  /\ ChatMessage.rideId a = ChatMessage.rideId b
  /\ ChatMessage.senderId a = ChatMessage.senderId b
  /\ ChatMessage.senderType a = ChatMessage.senderType b
  /\ ChatMessage.message a = ChatMessage.message b
  /\ ChatMessage.timestamp a = ChatMessage.timestamp b.

(** Timestamps are ISO-8601 strings in one fixed format, for which
    chronological order is the lexicographic order of the code units.  The
    screen itself never compares two timestamps; this order only serves to
    state the display-order property. *)
Fixpoint timestampLe (a b : JSString) : bool :=
  match a, b with
  | [], _ => true
  | _ :: _, [] => false
  | x :: a', y :: b' => ((x <? y) || (x =? y) && timestampLe a' b')%N
  end.

Fixpoint sortedByTimestamp (log : list ChatMessage.t) : bool :=
  match log with
  | [] => true
  | m :: rest =>
      match rest with
      | [] => true
      | m' :: _ => timestampLe (ChatMessage.timestamp m) (ChatMessage.timestamp m')
                   && sortedByTimestamp rest
      end
  end.

Definition isHistory (e : Event) : bool :=
  match e with ChatHistoryEvent _ => true | _ => false end.

(** The typing state machine is active while a typing-stop timer is
    pending. *)
Definition typingActive (s : Screen) : bool := existsb isTypingTimer (pending s).

(** Time that passes during a list of events. *)
Fixpoint elapsed (es : list Event) : N :=
  match es with
  | [] => 0
  | Elapse dt :: rest => dt + elapsed rest
  | _ :: rest => elapsed rest
  end.

(** How many events of [es], run from [s], turn the loading flag off. *)
Fixpoint clearings (s : Screen) (es : list Event) : nat :=
  match es with
  | [] => 0
  | e :: rest =>
      (if isLoading s && negb (isLoading (exec (dispatch e) s)) then 1 else 0)
      + clearings (exec (dispatch e) s) rest
  end.

(** Keystrokes, each after a pause. *)
Fixpoint keystrokes (ks : list (N * JSString)) : list Event :=
  match ks with
  | [] => []
  | (pause, text) :: rest => Elapse pause :: ChangeText text :: keystrokes rest
  end.

(** What a timer callback emits when it runs. *)
Definition callbackEmits (cb : Callback) : list Command :=
  match cb with
  | historyTimeout _ => []
  | typingStop uid rid =>
      if truthy uid && truthy rid then [sendTypingStop rid uid user] else []
  end.

(** What [clearTimeout(typingTimeoutRef.current)], guarded by the ref being
    set, leaves of the queue. *)
Definition cancel (ref : option nat) (q : list Timer) : list Timer :=
  match ref with
  | Some h => filter (fun t => negb (handle t =? h)) q
  | None => q
  end.

(** The timer runtime is consistent: pending timers are in the future,
    handles are fresh, and the ref holds the handle of the typing timer, if
    one is pending, and of no other pending timer. *)
Record wf (s : Screen) : Prop := mkWf {
  wf_due : forall t, In t (pending s) -> (now s < due t)%N;
  wf_handle : forall t, In t (pending s) -> handle t < nextHandle s;
  wf_typing : forall t, In t (pending s) ->
                (isTypingTimer t = true <-> typingTimeoutRef s = Some (handle t));
  wf_ref : forall h, typingTimeoutRef s = Some h -> h < nextHandle s
}.

(** The same, as a check that runs. *)
Definition refIs (ref : option nat) (h : nat) : bool :=
  match ref with Some h' => h' =? h | None => false end.

Definition timerOk (s : Screen) (t : Timer) : bool :=
  (now s <? due t)%N && (handle t <? nextHandle s)
  && Bool.eqb (isTypingTimer t) (refIs (typingTimeoutRef s) (handle t)).

Definition wellFormed (s : Screen) : bool :=
  forallb (timerOk s) (pending s)
  && match typingTimeoutRef s with Some h => h <? nextHandle s | None => true end.

(** A history timeout that will turn the loading flag off is pending and due
    by [deadline], unless the flag is off already. *)
Definition armed (deadline : N) (s : Screen) : Prop :=
  isLoading s = false
  \/ exists t, In t (pending s) /\ callback t = historyTimeout true
               /\ (due t <= deadline)%N.

(** Exactly one typing-stop timer is pending; it is due at [deadline] and
    carries the screen's user and ride ids. *)
Definition typingDue (deadline : N) (s : Screen) : Prop :=
  exists t, filter isTypingTimer (pending s) = [t]
            /\ due t = deadline
            /\ callback t = typingStop (userId s) (rideId s).

(** The flag of the last typing indicator of the driver's in [es]. *)
Fixpoint lastDriverTyping (es : list Event) : option bool :=
  match es with
  | [] => None
  | e :: rest =>
      match lastDriverTyping rest with
      | Some b => Some b
      | None =>
          match e with
          | TypingIndicatorEvent d =>
              if SenderType_eqb (TypingIndicator.senderType d) driver
              then Some (TypingIndicator.isTyping d) else None
          | _ => None
          end
      end
  end.

Definition isDriverPush (e : Event) : bool :=
  match e with
  | ChatMessageEvent m => SenderType_eqb (ChatMessage.senderType m) driver
  | _ => false
  end.

Definition isDriverMessage (m : ChatMessage.t) : bool :=
  SenderType_eqb (ChatMessage.senderType m) driver.

Definition isHistoryRequest (c : Command) : bool :=
  match c with getChatHistory _ _ _ => true | _ => false end.

Definition isMounted (e : Event) : bool :=
  match e with Mounted => true | _ => false end.

(** The icon [renderMessage] puts under a message, if any: the [name] of the
    read indicator. *)
Definition readIndicator (item : ChatMessage.t) : option JSString :=
  if SenderType_eqb (ChatMessage.senderType item) user
  then Some (if ChatMessage.isRead item then js "checkmark-done" else js "checkmark")
  else None.

(** The numbers below [k], in order. *)
Definition below (k : nat) : list N := map N.of_nat (seq 0 k).

(** Every hour and minute of a day. *)
Definition timesOfDay : list (N * N) :=
  flat_map (fun h => map (fun m => (h, m)) (below 60)) (below 24).

(** A date an hour or more before [nowTime], at the given local time. *)
Definition anHourAgo (nowTime : Z) (hm : N * N) : Date.t :=
  Date.Build (nowTime - 3600000) (fst hm) (snd hm).

(** ** Every handler of the screen *)

Definition setUserId (v : JSString) (s : Screen) :=
  mkScreen (messages s) (newMessage s) (isDriverTyping s) (isLoading s)
           v (rideId s) (driverName s) (typingTimeoutRef s)
           (now s) (pending s) (nextHandle s).

(** The effect that resolves the user id once auth is loaded: the id the
    token yields, or, when reading the token throws ([jwt = None]), the
    route's [userId] or else 'user123'. *)
Definition getUserId (isLoaded : bool) (jwt routeUserId : option JSString)
  : Eff unit :=
  when isLoaded
    (modify (setUserId match jwt with
                       | Some id => id
                       | None => orElse routeUserId (js "user123")
                       end)).

(** Everything that can run on the screen: the events of the loop above,
    and the handlers that loop leaves out.  A re-run of the wiring effect is
    [CleanupEffect] followed by [Dispatch Mounted]. *)
Inductive Action : Type :=
| Dispatch (e : Event)
| TapQuickReply (reply : JSString)          (* handleQuickReply *)
| TapTestNotification                       (* the header's test button *)
| CleanupEffect                             (* cleanupListeners *)
| UserIdEffect (isLoaded : bool) (jwt routeUserId : option JSString).

Definition perform (a : Action) : Eff unit :=
  match a with
  | Dispatch e => dispatch e
  | TapQuickReply reply => handleQuickReply reply
  | TapTestNotification => testNotification
  | CleanupEffect => cleanupListeners
  | UserIdEffect isLoaded jwt routeUserId => getUserId isLoaded jwt routeUserId
  end.

Fixpoint performAll (acts : list Action) : Eff unit :=
  match acts with
  | [] => ret tt
  | a :: rest => perform a ;; performAll rest
  end.

(** The three socket listeners that write the log. *)
Definition writesLog (a : Action) : bool :=
  match a with
  | Dispatch (ChatMessageEvent _) | Dispatch (ChatHistoryEvent _)
  | Dispatch (MessagesReadEvent _) => true
  | _ => false
  end.

Definition isDriverPushAction (a : Action) : bool :=
  match a with Dispatch e => isDriverPush e | _ => false end.

Definition isTestTap (a : Action) : bool :=
  match a with TapTestNotification => true | _ => false end.

(** ** Sample data *)

Definition msg (i : string) (who : SenderType) (body at_ : string) (read : bool)
  : ChatMessage.t :=
  ChatMessage.Build (js i) (js "ride-1") (js (match who with user => "u1" | driver => "d1" end))
                    who (js body) (js at_) read.

Definition screen0 : Screen := initial (js "u1") (js "ride-1") (Some (js "Asha")).

Definition hiFromDriver : ChatMessage.t :=
  msg "s1" driver "Hi" "2024-05-01T10:00:00.000Z" false.

Definition early : ChatMessage.t :=
  msg "a" driver "On my way" "2024-05-01T10:00:01.000Z" false.
Definition late : ChatMessage.t :=
  msg "b" user "Thanks" "2024-05-01T10:00:02.000Z" false.
Definition historyOf (ms : list ChatMessage.t) : Event :=
  ChatHistoryEvent (Some (ChatHistory.Build (Some ms))).

Definition helloTyped : Screen := exec (handleTyping (js "Hello")) screen0.


(** Three quick keystrokes that never empty the input: "a", "ab", and back
    to "a". *)
Definition retyped : list Event :=
  [ChangeText (js "a"); Elapse 100; ChangeText (js "ab"); Elapse 100; ChangeText (js "a")].

(** "hi" typed, then a second of silence. *)
Definition typedThenQuiet : list Event :=
  [ChangeText (js "h"); Elapse 100; ChangeText (js "hi"); Elapse 1000].

(** The history request times out, a message is pushed, and only then the
    snapshot arrives. *)
Definition timedOutThenPushed : list Event :=
  [Mounted; Elapse 10000; ChatMessageEvent late].

(** ** Basic facts about handlers *)

#[local] Arguments N.add : simpl never.

Lemma exec_bind A B (m : Eff A) (k : A -> Eff B) (s : Screen) :
  exec (bind m k) s = exec (k (fst (fst (m s)))) (exec m s).
Proof.
  unfold exec, bind. destruct (m s) as [[a s1] c1]. simpl.
  now destruct (k a s1) as [[b s2] c2].
Qed.

Lemma emitted_bind A B (m : Eff A) (k : A -> Eff B) (s : Screen) :
  emitted (bind m k) s = emitted m s ++ emitted (k (fst (fst (m s)))) (exec m s).
Proof.
  unfold emitted, exec, bind. destruct (m s) as [[a s1] c1]. simpl.
  now destruct (k a s1) as [[b s2] c2].
Qed.

Lemma exec_run_cons (e : Event) (es : list Event) (s : Screen) :
  exec (run (e :: es)) s = exec (run es) (exec (dispatch e) s).
Proof. simpl run. now rewrite exec_bind. Qed.

Lemma emitted_run_cons (e : Event) (es : list Event) (s : Screen) :
  emitted (run (e :: es)) s
  = emitted (dispatch e) s ++ emitted (run es) (exec (dispatch e) s).
Proof. simpl run. now rewrite emitted_bind. Qed.

Lemma run_app (es1 es2 : list Event) (s : Screen) :
  exec (run (es1 ++ es2)) s = exec (run es2) (exec (run es1) s).
Proof.
  revert s; induction es1 as [|e es1 IH]; intro s; [reflexivity|].
  simpl app. simpl run. rewrite !exec_bind. apply IH.
Qed.

Lemma onChatMessage_messages (m : ChatMessage.t) (s : Screen) :
  messages (exec (onChatMessage m) s) = messages s ++ [m].
Proof. unfold onChatMessage. destruct (ChatMessage.senderType m); reflexivity. Qed.

Lemma onChatHistory_messages (data : option ChatHistory.t) (s : Screen) :
  messages (exec (onChatHistory data) s) = snapshotMessages data.
Proof. destruct data as [[[ms|]]|]; reflexivity. Qed.

(** ** C1: admission *)

(** C1, as the spec states it, fails: the listener appends every message it
    is handed.  Admitting the same message twice leaves two entries with one
    id, which is not the log that admitting it once leaves. *)
Lemma admitting_twice_duplicates :
  messages (exec (onChatMessage hiFromDriver) screen0) = [hiFromDriver]
  /\ messages (exec (onChatMessage hiFromDriver ;; onChatMessage hiFromDriver) screen0)
     = [hiFromDriver; hiFromDriver]
  /\ messages (exec (onChatMessage hiFromDriver ;; onChatMessage hiFromDriver) screen0)
     <> messages (exec (onChatMessage hiFromDriver) screen0)
  /\ ~ NoDup (ids (messages
         (exec (onChatMessage hiFromDriver ;; onChatMessage hiFromDriver) screen0))).
Proof.
  repeat split; try discriminate.
  intro H. inversion H as [|x l Hin _]; subst. apply Hin. left; reflexivity.
Qed.

(** C1 (amended): admission appends.  Admitting [m] puts [m] at the end of
    the log and leaves the earlier entries as they were; the ids of the log
    are pairwise distinct afterwards exactly when they were before and the
    id of [m] was not among them; admitting [m] a second time adds a second
    copy, so ids are then never distinct. *)
Theorem onChatMessage_appends (m : ChatMessage.t) (s : Screen) :
  messages (exec (onChatMessage m) s) = messages s ++ [m]
  /\ messages (exec (onChatMessage m) (exec (onChatMessage m) s)) = messages s ++ [m; m]
  /\ (NoDup (ids (messages (exec (onChatMessage m) s)))
      <-> NoDup (ids (messages s)) /\ ~ In (ChatMessage.id m) (ids (messages s)))
  /\ ~ NoDup (ids (messages (exec (onChatMessage m) (exec (onChatMessage m) s)))).
Proof.
  rewrite !onChatMessage_messages. repeat split.
  - now rewrite <- app_assoc.
  - unfold ids in *. rewrite map_app in H. simpl in H.
    apply NoDup_remove_1 in H. now rewrite app_nil_r in H.
  - unfold ids in *. rewrite map_app in H. simpl in H.
    apply NoDup_remove_2 in H. now rewrite app_nil_r in H.
  - intros [Hnd Hnin]. unfold ids in *. rewrite map_app. simpl.
    apply NoDup_app; [assumption | constructor; [intros [] | constructor] | ].
    intros x Hx [<-|[]]. contradiction.
  - unfold ids. rewrite <- app_assoc, map_app. simpl.
    intro H. apply NoDup_app_remove_l in H.
    inversion H as [|x l Hin _]; subst. apply Hin. left; reflexivity.
Qed.

(** ** C5: notification and mark-read *)

(** C5: the listener appends every pushed message to the log; it calls the
    notification helper and emits mark-read exactly when the sender is the
    driver, and makes no outbound call for a message of the user's own. *)
Theorem onChatMessage_notifies_iff_driver (m : ChatMessage.t) (s : Screen) :
  messages (exec (onChatMessage m) s) = messages s ++ [m]
  /\ emitted (onChatMessage m) s
     = match ChatMessage.senderType m with
       | driver =>
           [ sendChatNotificationToCurrentUser
               (ChatMessage.rideId m) (ChatMessage.senderId m)
               (orElse (driverName s) (js "Pilot")) (ChatMessage.message m)
               (js "text") (js "high") (js "default") 1;
             markMessagesAsRead (ChatMessage.rideId m) (userId s) user ]
       | user => []
       end
  /\ (count isNotification (emitted (onChatMessage m) s) = 1
      <-> ChatMessage.senderType m = driver)
  /\ (count isMarkRead (emitted (onChatMessage m) s) = 1
      <-> ChatMessage.senderType m = driver)
  /\ (emitted (onChatMessage m) s = [] <-> ChatMessage.senderType m = user).
Proof.
  split; [apply onChatMessage_messages|].
  unfold onChatMessage.
  destruct (ChatMessage.senderType m) eqn:E; cbn;
    repeat split; intros; try reflexivity; try discriminate.
Qed.

(** ** C9: history snapshot *)

(** C9: whatever the log held, after a history snapshot it holds exactly the
    snapshot's list, or nothing when the payload or its message list is
    missing, and the loading flag is off. *)
Theorem onChatHistory_replaces_log (s : Screen) :
  (forall ms, messages (exec (onChatHistory (Some (ChatHistory.Build (Some ms)))) s) = ms)
  /\ messages (exec (onChatHistory (Some (ChatHistory.Build None))) s) = []
  /\ messages (exec (onChatHistory None) s) = []
  /\ (forall data s', messages (exec (onChatHistory data) s)
                      = messages (exec (onChatHistory data) s'))
  /\ (forall data, isLoading (exec (onChatHistory data) s) = false)
  /\ (forall data, emitted (onChatHistory data) s = []).
Proof.
  repeat split; try reflexivity; intros [[[ms|]]|]; reflexivity.
Qed.

(** ** C10: read receipt *)

Lemma onMessagesRead_messages (data : MessagesRead.t) (s : Screen) :
  messages (exec (onMessagesRead data) s)
  = map (fun m => ChatMessage.withIsRead
                    (if SenderType_eqb (ChatMessage.senderType m) user
                     then true else ChatMessage.isRead m) m)
        (messages s).
Proof. reflexivity. Qed.

(** C10: a read receipt, whatever it carries, keeps the length and order of
    the log and every field of every message but the read flag; a message of
    the user's is read afterwards, a message of the driver's is as it was.
    Nothing else in the screen changes and nothing is emitted. *)
Theorem onMessagesRead_frame (data : MessagesRead.t) (s : Screen) :
  length (messages (exec (onMessagesRead data) s)) = length (messages s)
  /\ (forall i m,
        nth_error (messages s) i = Some m ->
        exists m',
          nth_error (messages (exec (onMessagesRead data) s)) i = Some m'
          /\ sameButRead m' m
          /\ (ChatMessage.senderType m = user -> ChatMessage.isRead m' = true)
          /\ (ChatMessage.senderType m = driver -> m' = m))
  /\ exec (onMessagesRead data) s
     = setMessages (fun _ => messages (exec (onMessagesRead data) s)) s
  /\ emitted (onMessagesRead data) s = [].
Proof.
  rewrite onMessagesRead_messages. repeat split.
  - apply length_map.
  - intros i m Hi. eexists. split; [rewrite nth_error_map, Hi; reflexivity|].
    repeat split; destruct m as [a b c d e f g]; simpl; intros; subst; reflexivity.
Qed.

(** ** C8: sending *)

Lemma trimStart_nil (s : JSString) : trimStart s = [] <-> blank s = true.
Proof.
  induction s as [|c s IH]; simpl; [tauto|].
  destruct (isWhiteSpace c); simpl; [exact IH | split; discriminate].
Qed.

Lemma blank_trimStart (s : JSString) : blank (trimStart s) = blank s.
Proof.
  induction s as [|c s IH]; simpl; [reflexivity|].
  destruct (isWhiteSpace c) eqn:E; simpl; [exact IH | now rewrite E].
Qed.

Lemma blank_rev (s : JSString) : blank (rev s) = blank s.
Proof.
  unfold blank. induction s as [|c s IH]; simpl; [reflexivity|].
  rewrite forallb_app, IH. simpl. rewrite andb_true_r. apply andb_comm.
Qed.

(** [newMessage.trim()] is falsy exactly for a blank input. *)
Lemma truthy_trim (s : JSString) : truthy (trim s) = negb (blank s).
Proof.
  unfold trim, trimEnd.
  destruct (trimStart (rev (trimStart s))) as [|c r] eqn:E.
  - apply trimStart_nil in E. rewrite blank_rev, blank_trimStart in E.
    now rewrite E.
  - assert (H : blank s <> true).
    { intro B. rewrite <- blank_trimStart, <- blank_rev in B.
      apply trimStart_nil in B. congruence. }
    destruct (blank s); [congruence|].
    simpl. destruct (rev r ++ [c]) eqn:E'; [|reflexivity].
    now apply app_eq_nil in E' as [_ E'].
Qed.

(** C8, as the spec states it, fails on its second half: with "Hello" in the
    input, sending emits the send command (and typing-stop) but puts no
    message in the log. *)
Lemma send_inserts_nothing :
  newMessage helloTyped = js "Hello"
  /\ blank (newMessage helloTyped) = false
  /\ messages helloTyped = []
  /\ messages (exec handleSendMessage helloTyped) = []
  /\ emitted handleSendMessage helloTyped
     = [ sendChatMessage (js "ride-1") (js "u1") user (js "Hello");
         sendTypingStop (js "ride-1") (js "u1") user ].
Proof. repeat split. Qed.

(** C8 (amended): with a blank input (or without a user id or a ride id)
    sending does nothing at all; otherwise it emits the send command with the
    trimmed text, then typing-stop, empties the input, drops the typing
    timer, and leaves the log as it is. *)
Theorem handleSendMessage_contract (s : Screen) :
  if blank (newMessage s) || negb (truthy (userId s) && truthy (rideId s))
  then handleSendMessage s = (tt, s, [])
  else emitted handleSendMessage s
       = [ sendChatMessage (rideId s) (userId s) user (trim (newMessage s));
           sendTypingStop (rideId s) (userId s) user ]
       /\ messages (exec handleSendMessage s) = messages s
       /\ newMessage (exec handleSendMessage s) = []
       /\ typingTimeoutRef (exec handleSendMessage s) = None.
Proof.
  unfold handleSendMessage, bind, gets, when, exec, emitted. simpl.
  rewrite truthy_trim.
  destruct (blank (newMessage s)); simpl; [now destruct s|].
  destruct (truthy (userId s)); simpl; [|now destruct s].
  destruct (truthy (rideId s)); simpl; [|now destruct s].
  destruct (typingTimeoutRef s) eqn:R; simpl; rewrite ?R; repeat split.
Qed.

(** ** C3: order of the log *)

(** C3, as the spec states it, fails: the log is never sorted.  Two pushes
    delivered newest first stay newest first; the same two messages
    delivered in the other order give another log; and a snapshot delivered
    after a push drops the pushed message. *)
Lemma log_follows_delivery_order :
  messages (exec (run [ChatMessageEvent late; ChatMessageEvent early]) screen0)
  = [late; early]
  /\ sortedByTimestamp [late; early] = false
  /\ messages (exec (run [ChatMessageEvent early; ChatMessageEvent late]) screen0)
     = [early; late]
  /\ messages (exec (run [ChatMessageEvent late; ChatMessageEvent early]) screen0)
     <> messages (exec (run [ChatMessageEvent early; ChatMessageEvent late]) screen0)
  /\ messages (exec (run [historyOf [early]; ChatMessageEvent late]) screen0)
     = [early; late]
  /\ messages (exec (run [ChatMessageEvent late; historyOf [early]]) screen0)
     = [early].
Proof. repeat split; discriminate. Qed.

Lemma run_pushes (pushes : list ChatMessage.t) (s : Screen) :
  messages (exec (run (map ChatMessageEvent pushes)) s) = messages s ++ pushes.
Proof.
  revert s; induction pushes as [|m ms IH]; intro s; simpl.
  - now rewrite app_nil_r.
  - rewrite exec_bind, IH. simpl dispatch. rewrite onChatMessage_messages.
    now rewrite <- app_assoc.
Qed.

(** C3 (amended): the log is in delivery order.  Pushed messages follow what
    the log held, in the order they were pushed; a snapshot replaces the log
    by its own list, in the snapshot's order.  So, after any deliveries, the
    log is the last snapshot's list followed by the messages pushed since. *)
Theorem log_in_delivery_order (s : Screen) (pushes : list ChatMessage.t) :
  messages (exec (run (map ChatMessageEvent pushes)) s) = messages s ++ pushes
  /\ forall (earlier : list Event) (data : option ChatHistory.t),
       messages (exec (run (earlier ++ ChatHistoryEvent data
                                    :: map ChatMessageEvent pushes)) s)
       = snapshotMessages data ++ pushes.
Proof.
  split; [apply run_pushes|].
  intros earlier data. rewrite run_app. simpl run. rewrite exec_bind, run_pushes.
  simpl dispatch. now rewrite onChatHistory_messages.
Qed.

(** ** What each handler leaves alone *)

Ltac handler :=
  unfold setupChat, loadChatHistory, handleTyping, handleSendMessage,
    onTypingIndicator, onMessagesRead, onChatMessage, onChatHistory,
    runCallback, clearTimeout, setTimeout,
    bind, gets, modify, emit, when, ret, exec, emitted;
  simpl.

Lemma runCallbacks_frame (ts : list Timer) (s : Screen) :
  messages (exec (runCallbacks ts) s) = messages s
  /\ userId (exec (runCallbacks ts) s) = userId s
  /\ rideId (exec (runCallbacks ts) s) = rideId s
  /\ typingTimeoutRef (exec (runCallbacks ts) s) = typingTimeoutRef s
  /\ now (exec (runCallbacks ts) s) = now s
  /\ pending (exec (runCallbacks ts) s) = pending s
  /\ nextHandle (exec (runCallbacks ts) s) = nextHandle s.
Proof.
  revert s; induction ts as [|t ts IH]; intro s; [repeat split|].
  simpl runCallbacks. rewrite exec_bind.
  destruct (IH (exec (runCallback (callback t)) s)) as (H1 & H2 & H3 & H4 & H5 & H6 & H7).
  rewrite H1, H2, H3, H4, H5, H6, H7.
  destruct (callback t) as [[|]|uid rid]; handler; repeat split;
    destruct (truthy uid && truthy rid); reflexivity.
Qed.

Lemma setupChat_eq (s : Screen) :
  setupChat s
  = if truthy (userId s) && truthy (rideId s)
    then (tt,
          setRuntime (now s)
            (enqueue (mkTimer (nextHandle s) (now s + 10000) (historyTimeout (isLoading s)))
                     (pending s))
            (S (nextHandle s)) s,
          [getChatHistory (rideId s) (userId s) user])
    else (tt, s, []).
Proof.
  handler. destruct (truthy (userId s) && truthy (rideId s)) eqn:E;
    simpl; rewrite ?E; reflexivity.
Qed.

Lemma handleTyping_eq (text : JSString) (s : Screen) :
  handleTyping text s
  = (tt,
     setTypingTimeoutRef (Some (nextHandle s))
       (setRuntime (now s)
          (enqueue (mkTimer (nextHandle s) (now s + 1000) (typingStop (userId s) (rideId s)))
                   (cancel (typingTimeoutRef s) (pending s)))
          (S (nextHandle s))
          (setNewMessage text s)),
     if (length text =? 1) && truthy (userId s) && truthy (rideId s)
     then [sendTypingStart (rideId s) (userId s) user] else []).
Proof.
  handler.
  destruct ((length text =? 1) && truthy (userId s) && truthy (rideId s));
    simpl; destruct (typingTimeoutRef s); reflexivity.
Qed.

Lemma handleSendMessage_eq (s : Screen) :
  handleSendMessage s
  = if truthy (trim (newMessage s)) && truthy (userId s) && truthy (rideId s)
    then (tt,
          setTypingTimeoutRef None
            (setRuntime (now s) (cancel (typingTimeoutRef s) (pending s)) (nextHandle s)
               (setNewMessage [] s)),
          [sendChatMessage (rideId s) (userId s) user (trim (newMessage s));
           sendTypingStop (rideId s) (userId s) user])
    else (tt, s, []).
Proof.
  handler.
  destruct (truthy (trim (newMessage s)) && truthy (userId s) && truthy (rideId s));
    simpl; [|reflexivity].
  destruct s as [ms nm dt ld uid rid dn [h|] t q n]; reflexivity.
Qed.

Lemma exec_elapse (dt : N) (s : Screen) :
  exec (elapse dt) s
  = exec (runCallbacks (filter (isDue (now s + dt)) (pending s)))
      (setRuntime (now s + dt)
         (filter (fun x => negb (isDue (now s + dt) x)) (pending s)) (nextHandle s) s).
Proof. reflexivity. Qed.

Lemma emitted_elapse (dt : N) (s : Screen) :
  emitted (elapse dt) s
  = emitted (runCallbacks (filter (isDue (now s + dt)) (pending s)))
      (setRuntime (now s + dt)
         (filter (fun x => negb (isDue (now s + dt) x)) (pending s)) (nextHandle s) s).
Proof. reflexivity. Qed.

Lemma exec_Mounted (s : Screen) : exec (dispatch Mounted) s = snd (fst (setupChat s)).
Proof. reflexivity. Qed.
Lemma exec_ChangeText (text : JSString) (s : Screen) :
  exec (dispatch (ChangeText text)) s = snd (fst (handleTyping text s)).
Proof. reflexivity. Qed.
Lemma exec_PressSend (s : Screen) :
  exec (dispatch PressSend) s = snd (fst (handleSendMessage s)).
Proof. reflexivity. Qed.

Lemma keeps_messages (e : Event) (s : Screen) :
  match e with
  | ChatMessageEvent _ | ChatHistoryEvent _ | MessagesReadEvent _ => True
  | _ => messages (exec (dispatch e) s) = messages s
  end.
Proof.
  destruct e as [ | m | d | d | d | text | | dt]; try exact I.
  - rewrite exec_Mounted, setupChat_eq.
    destruct (truthy (userId s) && truthy (rideId s)); reflexivity.
  - simpl dispatch. handler. destruct (SenderType_eqb _ _); reflexivity.
  - rewrite exec_ChangeText, handleTyping_eq. reflexivity.
  - rewrite exec_PressSend, handleSendMessage_eq.
    destruct (truthy (trim (newMessage s)) && truthy (userId s) && truthy (rideId s));
      reflexivity.
  - simpl dispatch. rewrite exec_elapse.
    now rewrite (proj1 (runCallbacks_frame _ _)).
Qed.

(** ** C2: read flags *)

Lemma keepsRead_refl (log : list ChatMessage.t) : keepsRead log log.
Proof. intros i m Hi Hr. exists m. auto. Qed.

Lemma keepsRead_trans (a b c : list ChatMessage.t) :
  keepsRead a b -> keepsRead b c -> keepsRead a c.
Proof.
  intros Hab Hbc i m Hi Hr.
  destruct (Hab i m Hi Hr) as (m' & Hi' & Hid' & Hr').
  destruct (Hbc i m' Hi' Hr') as (m'' & Hi'' & Hid'' & Hr'').
  exists m''. repeat split; congruence.
Qed.

Lemma dispatch_keepsRead (e : Event) (s : Screen) :
  isHistory e = false -> keepsRead (messages s) (messages (exec (dispatch e) s)).
Proof.
  intro He. pose proof (keeps_messages e s) as K.
  destruct e as [ | m | d | d | d | text | | dt]; try discriminate;
    try (rewrite K; apply keepsRead_refl).
  - simpl dispatch. rewrite onChatMessage_messages. intros i x Hi Hr.
    exists x. repeat split; [|assumption].
    rewrite nth_error_app1; [assumption|]. apply nth_error_Some. congruence.
  - simpl dispatch. rewrite onMessagesRead_messages. intros i x Hi Hr.
    eexists. split; [rewrite nth_error_map, Hi; reflexivity|].
    simpl. rewrite Hr. split; [reflexivity|]. now destruct (SenderType_eqb _ _).
Qed.

(** C2, as the spec states it, fails for the history snapshot: the snapshot
    replaces the log, flags included.  A message marked read by a read
    receipt is unread again once a snapshot lists it as unread. *)
Lemma snapshot_unreads_message :
  nth_error (messages (exec (run [ChatMessageEvent late;
                                  MessagesReadEvent (MessagesRead.Build (js "ride-1") driver)])
                            screen0)) 0
  = Some (ChatMessage.withIsRead true late)
  /\ nth_error (messages (exec (run [ChatMessageEvent late;
                                     MessagesReadEvent (MessagesRead.Build (js "ride-1") driver);
                                     historyOf [late]])
                               screen0)) 0
     = Some late
  /\ ChatMessage.id late = ChatMessage.id (ChatMessage.withIsRead true late)
  /\ ChatMessage.isRead late = false
  /\ ~ keepsRead
         (messages (exec (run [ChatMessageEvent late;
                               MessagesReadEvent (MessagesRead.Build (js "ride-1") driver)])
                         screen0))
         (messages (exec (run [ChatMessageEvent late;
                               MessagesReadEvent (MessagesRead.Build (js "ride-1") driver);
                               historyOf [late]])
                         screen0)).
Proof.
  repeat split.
  intro K. destruct (K 0 (ChatMessage.withIsRead true late) eq_refl eq_refl)
    as (m' & Hm' & _ & Hr).
  vm_compute in Hm'. injection Hm' as <-. discriminate.
Qed.

(** C2 (amended): through any run of events with no history snapshot among
    them (pushed messages, typing indicators, read receipts, keystrokes,
    sends, timers firing), a message that is read stays in its place in the
    log and stays read. *)
Theorem read_stays_without_snapshot (es : list Event) (s : Screen) :
  existsb isHistory es = false ->
  keepsRead (messages s) (messages (exec (run es) s)).
Proof.
  revert s; induction es as [|e es IH]; intros s H; [apply keepsRead_refl|].
  simpl in H. apply orb_false_iff in H as [He Hes].
  simpl run. rewrite exec_bind.
  eapply keepsRead_trans; [apply dispatch_keepsRead, He | apply IH, Hes].
Qed.

Lemma read_stays_without_snapshot_witness :
  keepsRead (messages (exec (onChatMessage (ChatMessage.withIsRead true early)) screen0))
            (messages (exec (run [ChatMessageEvent late; ChangeText (js "o");
                                  MessagesReadEvent (MessagesRead.Build (js "ride-1") driver);
                                  Elapse 1000; PressSend])
                            (exec (onChatMessage (ChatMessage.withIsRead true early)) screen0))).
Proof. apply read_stays_without_snapshot. reflexivity. Defined.

(** ** The timer runtime *)

Lemma In_enqueue (t x : Timer) (q : list Timer) :
  In x (enqueue t q) <-> x = t \/ In x q.
Proof.
  induction q as [|u q IH]; simpl; [intuition|].
  destruct (due t <? due u)%N; simpl; [intuition|].
  rewrite IH. intuition.
Qed.

Lemma filter_enqueue_skip (p : Timer -> bool) (t : Timer) (q : list Timer) :
  p t = false -> filter p (enqueue t q) = filter p q.
Proof.
  intro Hp. induction q as [|u q IH]; simpl; [now rewrite Hp|].
  destruct (due t <? due u)%N; simpl; [now rewrite Hp|].
  now rewrite IH.
Qed.

Lemma filter_enqueue_only (p : Timer -> bool) (t : Timer) (q : list Timer) :
  p t = true -> filter p q = [] -> filter p (enqueue t q) = [t].
Proof.
  intros Hp. induction q as [|u q IH]; simpl; [now rewrite Hp|].
  destruct (p u) eqn:Hu; [discriminate|]. intro Hq.
  destruct (due t <? due u)%N; simpl; rewrite ?Hp, ?Hu; [now rewrite Hq|].
  now apply IH.
Qed.

Lemma In_cancel (ref : option nat) (x : Timer) (q : list Timer) :
  In x (cancel ref q) <-> In x q /\ ref <> Some (handle x).
Proof.
  destruct ref as [h|]; simpl; [|intuition discriminate].
  rewrite filter_In, negb_true_iff, Nat.eqb_neq. intuition congruence.
Qed.

Lemma filter_nil_iff A (p : A -> bool) (l : list A) :
  filter p l = [] <-> forall x, In x l -> p x = false.
Proof.
  induction l as [|a l IH]; simpl; [intuition|].
  destruct (p a) eqn:Pa; split.
  - discriminate.
  - intro H. specialize (H a (or_introl eq_refl)). congruence.
  - intros H x [<-|Hx]; [assumption|]. now apply IH.
  - intro H. apply IH. auto.
Qed.

Lemma existsb_filter_nil A (p : A -> bool) (l : list A) :
  filter p l = [] -> existsb p l = false.
Proof.
  induction l as [|a l IH]; simpl; [reflexivity|].
  destruct (p a); [discriminate | exact IH].
Qed.

Lemma filter_comm A (p q : A -> bool) (l : list A) :
  filter p (filter q l) = filter q (filter p l).
Proof.
  induction l as [|a l IH]; simpl; [reflexivity|].
  destruct (p a) eqn:Pa, (q a) eqn:Qa; simpl; rewrite ?Pa, ?Qa, IH; reflexivity.
Qed.

Lemma wellFormed_wf (s : Screen) : wellFormed s = true -> wf s.
Proof.
  unfold wellFormed. rewrite andb_true_iff, forallb_forall. intros [Hq Hr].
  assert (Ht : forall t, In t (pending s) ->
                 (now s < due t)%N /\ handle t < nextHandle s
                 /\ (isTypingTimer t = true <-> typingTimeoutRef s = Some (handle t))).
  { intros t Ht. specialize (Hq t Ht). unfold timerOk in Hq.
    rewrite !andb_true_iff, N.ltb_lt, Nat.ltb_lt, Bool.eqb_true_iff in Hq.
    destruct Hq as [[H1 H2] H3]. repeat split; try assumption.
    - rewrite H3. unfold refIs. destruct (typingTimeoutRef s); [|discriminate].
      rewrite Nat.eqb_eq. congruence.
    - rewrite H3. intros ->. simpl. apply Nat.eqb_refl. }
  constructor; try (intros t Hin; now apply Ht).
  intros h Hh. rewrite Hh in Hr. now apply Nat.ltb_lt.
Qed.

Lemma wf_wellFormed (s : Screen) : wf s -> wellFormed s = true.
Proof.
  intro W. unfold wellFormed. apply andb_true_iff. split.
  - apply forallb_forall. intros t Ht. unfold timerOk.
    rewrite !andb_true_iff, N.ltb_lt, Nat.ltb_lt, Bool.eqb_true_iff.
    repeat split; [now apply (wf_due W) | now apply (wf_handle W) |].
    pose proof (wf_typing W t Ht) as [T1 T2].
    destruct (isTypingTimer t) eqn:E.
    + rewrite (T1 eq_refl). simpl. symmetry. apply Nat.eqb_refl.
    + unfold refIs. destruct (typingTimeoutRef s) as [h|] eqn:R; [|reflexivity].
      destruct (Nat.eqb_spec h (handle t)) as [->|]; [|reflexivity].
      discriminate (T2 eq_refl).
  - destruct (typingTimeoutRef s) as [h|] eqn:R; [|reflexivity].
    apply Nat.ltb_lt, (wf_ref W), R.
Qed.

(** With a consistent runtime, clearing the ref's timer leaves no typing
    timer behind. *)
Lemma cancel_no_typing (s : Screen) :
  wf s -> filter isTypingTimer (cancel (typingTimeoutRef s) (pending s)) = [].
Proof.
  intros W. apply filter_nil_iff. intros x Hx.
  apply In_cancel in Hx as [Hin Hne].
  destruct (isTypingTimer x) eqn:E; [|reflexivity].
  apply (wf_typing W) in E; [contradiction | assumption].
Qed.

Lemma wf_dispatch (e : Event) (s : Screen) : wf s -> wf (exec (dispatch e) s).
Proof.
  intro W. destruct e as [ | m | d | d | d | text | | dt].
  - rewrite exec_Mounted, setupChat_eq.
    destruct (truthy (userId s) && truthy (rideId s)); [|exact W].
    constructor; simpl.
    + intros t [->|Ht]%In_enqueue; [simpl; lia | now apply (wf_due W)].
    + intros t [->|Ht]%In_enqueue; [simpl; lia|].
      pose proof (wf_handle W t Ht). lia.
    + intros t [->|Ht]%In_enqueue; [|now apply (wf_typing W)].
      simpl. split; [discriminate|]. intro R. apply (wf_ref W) in R. lia.
    + intros h R. apply (wf_ref W) in R. lia.
  - simpl dispatch. handler.
    destruct (SenderType_eqb _ _); destruct W; constructor; assumption.
  - simpl dispatch. destruct d as [[[ms|]]|]; destruct W; constructor; assumption.
  - simpl dispatch. handler.
    destruct (SenderType_eqb _ _); destruct W; constructor; assumption.
  - simpl dispatch. destruct W; constructor; assumption.
  - rewrite exec_ChangeText, handleTyping_eq. constructor; simpl.
    + intros t [->|[Ht _]%In_cancel]%In_enqueue; [simpl; lia | now apply (wf_due W)].
    + intros t [->|[Ht _]%In_cancel]%In_enqueue; [simpl; lia|].
      pose proof (wf_handle W t Ht). lia.
    + intros t [->|Ht]%In_enqueue; [simpl; tauto|].
      pose proof Ht as [Hin Hne]%In_cancel.
      pose proof (wf_handle W t Hin). pose proof (wf_typing W t Hin).
      split; [tauto|]. intro R. injection R as R. lia.
    + intros h R. injection R as <-. lia.
  - rewrite exec_PressSend, handleSendMessage_eq.
    destruct (truthy (trim (newMessage s)) && truthy (userId s) && truthy (rideId s));
      [|exact W].
    constructor; simpl.
    + intros t [Ht _]%In_cancel. now apply (wf_due W).
    + intros t [Ht _]%In_cancel. now apply (wf_handle W).
    + intros t [Ht Hne]%In_cancel. pose proof (wf_typing W t Ht).
      split; [tauto | discriminate].
    + discriminate.
  - simpl dispatch. rewrite exec_elapse.
    match goal with |- wf (exec (runCallbacks ?l) ?s') =>
      destruct (runCallbacks_frame l s') as (_ & _ & _ & R & T & Q & H) end.
    simpl in R, T, Q, H.
    constructor; rewrite ?R, ?T, ?Q, ?H.
    + intros t [Ht Hd]%filter_In. unfold isDue in Hd.
      apply negb_true_iff, N.leb_gt in Hd. exact Hd.
    + intros t [Ht _]%filter_In. now apply (wf_handle W).
    + intros t [Ht _]%filter_In. now apply (wf_typing W).
    + apply (wf_ref W).
Qed.

Lemma wf_run (es : list Event) (s : Screen) : wf s -> wf (exec (run es) s).
Proof.
  revert s; induction es as [|e es IH]; intros s W; [exact W|].
  simpl run. rewrite exec_bind. apply IH, wf_dispatch, W.
Qed.

Lemma wf_initial (uid rid : JSString) (name : option JSString) :
  wf (initial uid rid name).
Proof. constructor; simpl; try contradiction; discriminate. Qed.

(** Every screen the event loop can reach from the first render has a
    consistent timer runtime. *)
Lemma reachable_wellFormed (uid rid : JSString) (name : option JSString)
      (es : list Event) :
  wellFormed (exec (run es) (initial uid rid name)) = true.
Proof. apply wf_wellFormed, wf_run, wf_initial. Qed.

(** ** What timers emit *)

Lemma emitted_runCallbacks (ts : list Timer) (s : Screen) :
  emitted (runCallbacks ts) s = flat_map (fun t => callbackEmits (callback t)) ts.
Proof.
  revert s; induction ts as [|t ts IH]; intro s; [reflexivity|].
  simpl runCallbacks. rewrite emitted_bind, IH. simpl. f_equal.
  destruct (callback t) as [[|]|uid rid]; handler; try reflexivity.
  destruct (truthy uid && truthy rid); reflexivity.
Qed.

Lemma count_app (p : Command -> bool) (a b : list Command) :
  count p (a ++ b) = count p a + count p b.
Proof. unfold count. now rewrite filter_app, length_app. Qed.

(** Only typing timers emit typing-stop. *)
Lemma count_stops_typing_timers (ts : list Timer) :
  count isTypingStop (flat_map (fun t => callbackEmits (callback t)) ts)
  = count isTypingStop
      (flat_map (fun t => callbackEmits (callback t)) (filter isTypingTimer ts)).
Proof.
  induction ts as [|t ts IH]; [reflexivity|].
  simpl flat_map. rewrite count_app, IH. unfold isTypingTimer at 2.
  destruct (callback t) as [c|uid rid] eqn:E; simpl.
  - reflexivity.
  - rewrite count_app, E. reflexivity.
Qed.

Lemma dispatch_ids (e : Event) (s : Screen) :
  userId (exec (dispatch e) s) = userId s /\ rideId (exec (dispatch e) s) = rideId s.
Proof.
  destruct e as [ | m | d | d | d | text | | dt].
  - rewrite exec_Mounted, setupChat_eq.
    destruct (truthy (userId s) && truthy (rideId s)); split; reflexivity.
  - simpl dispatch. handler. destruct (SenderType_eqb _ _); split; reflexivity.
  - simpl dispatch. destruct d as [[[ms|]]|]; split; reflexivity.
  - simpl dispatch. handler. destruct (SenderType_eqb _ _); split; reflexivity.
  - split; reflexivity.
  - rewrite exec_ChangeText, handleTyping_eq. split; reflexivity.
  - rewrite exec_PressSend, handleSendMessage_eq.
    destruct (truthy (trim (newMessage s)) && truthy (userId s) && truthy (rideId s));
      split; reflexivity.
  - simpl dispatch. rewrite exec_elapse.
    match goal with |- context [exec (runCallbacks ?l) ?s'] =>
      destruct (runCallbacks_frame l s') as (_ & U & R & _) end.
    rewrite U, R. split; reflexivity.
Qed.

(** ** C6: typing-start and the debounced typing-stop *)

(** A keystroke leaves exactly one typing timer, due a second later. *)
Lemma handleTyping_arms (text : JSString) (s : Screen) :
  wf s -> typingDue (now s + 1000) (exec (handleTyping text) s)
          /\ now (exec (handleTyping text) s) = now s.
Proof.
  intro W. unfold exec. rewrite handleTyping_eq. simpl. split; [|reflexivity].
  exists (mkTimer (nextHandle s) (now s + 1000) (typingStop (userId s) (rideId s))).
  simpl. split; [|split; reflexivity].
  apply filter_enqueue_only; [reflexivity | now apply cancel_no_typing].
Qed.

(** Time passing short of the typing timer's deadline emits no typing-stop
    and leaves the timer pending. *)
Lemma elapse_before_typing_deadline (deadline pause : N) (s : Screen) :
  typingDue deadline s -> (now s + pause < deadline)%N ->
  count isTypingStop (emitted (elapse pause) s) = 0
  /\ typingDue deadline (exec (elapse pause) s).
Proof.
  intros (t & Ht & Hd & Hc) Hlt.
  assert (Hdue : isDue (now s + pause) t = false)
    by (unfold isDue; apply N.leb_gt; lia).
  split.
  - rewrite emitted_elapse, emitted_runCallbacks, count_stops_typing_timers.
    rewrite filter_comm, Ht. simpl. now rewrite Hdue.
  - rewrite exec_elapse.
    match goal with |- typingDue _ (exec (runCallbacks ?l) ?s') =>
      destruct (runCallbacks_frame l s') as (_ & U & R & _ & _ & Q & _) end.
    exists t. rewrite Q, U, R. simpl. rewrite filter_comm, Ht. simpl.
    rewrite Hdue. simpl. auto.
Qed.

(** Time passing up to the typing timer's deadline emits the timer's
    typing-stop, once, when the screen has its user and ride ids, and none
    when it lacks one; either way no typing timer is left. *)
Lemma elapse_to_typing_deadline (deadline quiet : N) (s : Screen) :
  typingDue deadline s -> (deadline <= now s + quiet)%N ->
  count isTypingStop (emitted (elapse quiet) s)
  = (if truthy (userId s) && truthy (rideId s) then 1 else 0)
  /\ typingActive (exec (elapse quiet) s) = false.
Proof.
  intros (t & Ht & Hd & Hc) Hle.
  assert (Hdue : isDue (now s + quiet) t = true)
    by (unfold isDue; apply N.leb_le; lia).
  split.
  - rewrite emitted_elapse, emitted_runCallbacks, count_stops_typing_timers.
    rewrite filter_comm, Ht. simpl. rewrite Hdue. simpl.
    rewrite Hc. simpl.
    destruct (truthy (userId s) && truthy (rideId s)); reflexivity.
  - rewrite exec_elapse. unfold typingActive.
    match goal with |- context [exec (runCallbacks ?l) ?s'] =>
      destruct (runCallbacks_frame l s') as (_ & _ & _ & _ & _ & Q & _) end.
    rewrite Q. simpl. apply existsb_filter_nil.
    rewrite filter_comm, Ht. simpl. now rewrite Hdue.
Qed.

Lemma emitted_handleTyping (text : JSString) (s : Screen) :
  emitted (handleTyping text) s
  = if (length text =? 1) && truthy (userId s) && truthy (rideId s)
    then [sendTypingStart (rideId s) (userId s) user] else [].
Proof. unfold emitted. now rewrite handleTyping_eq. Qed.

(** Through a burst of keystrokes less than a second apart. *)
Lemma keystrokes_burst (more : list (N * JSString)) (s : Screen) :
  wf s -> typingDue (now s + 1000) s ->
  Forall (fun k => (fst k < 1000)%N) more ->
  count isTypingStart (emitted (run (keystrokes more)) s)
  = (if truthy (userId s) && truthy (rideId s)
     then length (filter (fun text => length text =? 1) (map snd more))
     else 0)
  /\ count isTypingStop (emitted (run (keystrokes more)) s) = 0
  /\ wf (exec (run (keystrokes more)) s)
  /\ typingDue (now (exec (run (keystrokes more)) s) + 1000)
               (exec (run (keystrokes more)) s)
  /\ userId (exec (run (keystrokes more)) s) = userId s
  /\ rideId (exec (run (keystrokes more)) s) = rideId s.
Proof.
  revert s; induction more as [|[pause text] more IH]; intros s W D F.
  - simpl. change (exec (ret tt) s) with s.
    repeat apply conj; try reflexivity; try assumption.
    now destruct (truthy (userId s) && truthy (rideId s)).
  - inversion F as [|k ks Hk F']; subst. simpl in Hk.
    simpl keystrokes.
    set (s1 := exec (dispatch (Elapse pause)) s).
    set (s2 := exec (dispatch (ChangeText text)) s1).
    assert (W1 : wf s1) by (apply wf_dispatch, W).
    assert (W2 : wf s2) by (apply wf_dispatch, W1).
    destruct (dispatch_ids (Elapse pause) s) as [U1 R1]. fold s1 in U1, R1.
    destruct (dispatch_ids (ChangeText text) s1) as [U2 R2]. fold s2 in U2, R2.
    destruct (elapse_before_typing_deadline pause D) as [E0 _];
      [lia|].
    destruct (handleTyping_arms text W1) as [D2 N2].
    change (exec (handleTyping text) s1) with s2 in D2, N2. rewrite <- N2 in D2.
    destruct (IH s2 W2 D2 F') as (C1 & C2 & W' & D' & U' & R').
    rewrite !emitted_run_cons, !exec_run_cons, !count_app.
    fold s1. fold s2. rewrite C1, C2. simpl dispatch.
    rewrite E0, emitted_handleTyping.
    assert (E1 : count isTypingStart (emitted (elapse pause) s) = 0).
    { rewrite emitted_elapse, emitted_runCallbacks.
      induction (filter (isDue (now s + pause)) (pending s)) as [|t ts IHt];
        [reflexivity|].
      simpl. rewrite count_app, IHt.
      destruct (callback t) as [c|u r]; simpl; [reflexivity|].
      destruct (truthy u && truthy r); reflexivity. }
    rewrite E1, U2, R2, U1, R1.
    repeat apply conj; try assumption; try congruence.
    + simpl. destruct (length text =? 1), (truthy (userId s)), (truthy (rideId s));
        reflexivity.
    + destruct (length text =? 1), (truthy (userId s)), (truthy (rideId s));
        reflexivity.
Qed.

(** C6, as the spec states it, fails: typing-start goes out when the new
    text is one code unit long, whatever the input held before.  Pasting
    "Hello" into the empty input emits none; typing "a", "ab" and deleting
    back to "a" within 200 ms, the input never empty in between, emits two. *)
Lemma typing_start_follows_length :
  newMessage screen0 = []
  /\ newMessage (exec (handleTyping (js "Hello")) screen0) = js "Hello"
  /\ count isTypingStart (emitted (handleTyping (js "Hello")) screen0) = 0
  /\ newMessage (exec (run [ChangeText (js "a"); Elapse 100; ChangeText (js "ab");
                            Elapse 100]) screen0) = js "ab"
  /\ emitted (handleTyping (js "a"))
             (exec (run [ChangeText (js "a"); Elapse 100; ChangeText (js "ab");
                         Elapse 100]) screen0)
     = [sendTypingStart (js "ride-1") (js "u1") user]
  /\ elapsed retyped = 200%N
  /\ count isTypingStart (emitted (run retyped) screen0) = 2
  /\ count isTypingStop (emitted (run retyped) screen0) = 0.
Proof. repeat split. Qed.

(** C6 (amended): on a screen that has its user id and its ride id, a
    keystroke emits typing-start exactly when the new text is one code unit
    long; through a burst of keystrokes less than a second apart there are as
    many typing-starts as keystrokes that left a text of length one, and no
    typing-stop; once a second or more passes with no further input, exactly
    one typing-stop goes out.  On a screen that lacks either id, keystrokes
    emit no typing-start and the timer emits no typing-stop.  Either way no
    typing-stop goes out during the burst and no typing timer is left
    afterwards. *)
Theorem typing_debounce (s : Screen) (text : JSString)
        (more : list (N * JSString)) (quiet : N) :
  wellFormed s = true ->
  forallb (fun k => (fst k <? 1000)%N) more = true ->
  (1000 <=? quiet)%N = true ->
  count isTypingStart (emitted (handleTyping text) s)
  = (if (length text =? 1) && (truthy (userId s) && truthy (rideId s))
     then 1 else 0)
  /\ count isTypingStart (emitted (run (ChangeText text :: keystrokes more)) s)
     = (if truthy (userId s) && truthy (rideId s)
        then length (filter (fun t => length t =? 1) (text :: map snd more))
        else 0)
  /\ count isTypingStop (emitted (run (ChangeText text :: keystrokes more)) s) = 0
  /\ count isTypingStop
       (emitted (elapse quiet) (exec (run (ChangeText text :: keystrokes more)) s))
     = (if truthy (userId s) && truthy (rideId s) then 1 else 0)
  /\ typingActive
       (exec (elapse quiet) (exec (run (ChangeText text :: keystrokes more)) s)) = false.
Proof.
  intros W%wellFormed_wf F Q.
  assert (F' : Forall (fun k => (fst k < 1000)%N) more).
  { apply Forall_forall. intros k Hk.
    rewrite forallb_forall in F. now apply N.ltb_lt, F. }
  apply N.leb_le in Q.
  set (s1 := exec (dispatch (ChangeText text)) s).
  assert (W1 : wf s1) by (apply wf_dispatch, W).
  destruct (dispatch_ids (ChangeText text) s) as [U1 R1]. fold s1 in U1, R1.
  destruct (handleTyping_arms text W) as [D1 N1].
  change (exec (handleTyping text) s) with s1 in D1, N1. rewrite <- N1 in D1.
  destruct (keystrokes_burst (more := more) W1 D1 F') as (C1 & C2 & W2 & D2 & U2 & R2).
  destruct (elapse_to_typing_deadline quiet D2) as [S1 S2]; [lia|].
  rewrite !emitted_run_cons, !exec_run_cons, !count_app. fold s1.
  rewrite C1, C2, S1, S2, U2, R2, U1, R1. simpl dispatch. rewrite emitted_handleTyping.
  repeat apply conj; try reflexivity.
  - destruct (length text =? 1), (truthy (userId s)), (truthy (rideId s)); reflexivity.
  - simpl.
    destruct (length text =? 1), (truthy (userId s)), (truthy (rideId s)); reflexivity.
  - destruct (length text =? 1), (truthy (userId s)), (truthy (rideId s)); reflexivity.
Qed.

Lemma typing_debounce_witness :
  count isTypingStart (emitted (handleTyping (js "h")) screen0) = 1
  /\ count isTypingStart
       (emitted (run (ChangeText (js "h")
                      :: keystrokes [(120%N, js "he"); (80%N, js "hey")])) screen0) = 1
  /\ count isTypingStop
       (emitted (run (ChangeText (js "h")
                      :: keystrokes [(120%N, js "he"); (80%N, js "hey")])) screen0) = 0
  /\ count isTypingStop
       (emitted (elapse 1000)
          (exec (run (ChangeText (js "h")
                      :: keystrokes [(120%N, js "he"); (80%N, js "hey")])) screen0)) = 1
  /\ typingActive
       (exec (elapse 1000)
          (exec (run (ChangeText (js "h")
                      :: keystrokes [(120%N, js "he"); (80%N, js "hey")])) screen0)) = false.
Proof.
  exact (@typing_debounce screen0 (js "h") [(120%N, js "he"); (80%N, js "hey")] 1000%N
           eq_refl eq_refl eq_refl).
Defined.

(** ** C7: typing-stop on send *)

(** C7, as the spec states it, fails on its last part: a send emits
    typing-stop whether or not a stop timer is pending.  After "hi" and a
    second of silence the timer has emitted typing-stop and none is pending;
    pressing send then emits typing-stop a second time. *)
Lemma idle_send_emits_typing_stop :
  typingActive (exec (run typedThenQuiet) screen0) = false
  /\ count isTypingStop (emitted (run typedThenQuiet) screen0) = 1
  /\ emitted handleSendMessage (exec (run typedThenQuiet) screen0)
     = [ sendChatMessage (js "ride-1") (js "u1") user (js "hi");
         sendTypingStop (js "ride-1") (js "u1") user ]
  /\ count isTypingStop (emitted (run (typedThenQuiet ++ [PressSend])) screen0) = 2.
Proof. repeat split. Qed.

(** C7 (amended): a send that goes through (text not blank, user and ride
    ids present) emits typing-stop exactly once, right after the send
    command, whether or not a stop timer was pending; it cancels the pending
    stop timer and clears the ref, so no typing timer is left and no
    typing-stop follows from one, however much time passes. *)
Theorem send_stops_typing (s : Screen) :
  wellFormed s = true ->
  blank (newMessage s) = false ->
  truthy (userId s) = true -> truthy (rideId s) = true ->
  emitted handleSendMessage s
  = [ sendChatMessage (rideId s) (userId s) user (trim (newMessage s));
      sendTypingStop (rideId s) (userId s) user ]
  /\ count isTypingStop (emitted handleSendMessage s) = 1
  /\ typingTimeoutRef (exec handleSendMessage s) = None
  /\ typingActive (exec handleSendMessage s) = false
  /\ forall dt, count isTypingStop (emitted (elapse dt) (exec handleSendMessage s)) = 0.
Proof.
  intros W%wellFormed_wf B Hu Hr.
  pose proof (cancel_no_typing W) as C.
  pose proof (handleSendMessage_eq s) as E.
  rewrite truthy_trim, B, Hu, Hr in E. simpl in E.
  assert (Ee : emitted handleSendMessage s = snd (handleSendMessage s)) by reflexivity.
  assert (Ex : exec handleSendMessage s = snd (fst (handleSendMessage s))) by reflexivity.
  rewrite Ee, Ex, E. simpl fst. simpl snd.
  repeat apply conj; try reflexivity.
  - unfold typingActive. simpl. now apply existsb_filter_nil.
  - intro dt.
    rewrite emitted_elapse, emitted_runCallbacks, count_stops_typing_timers.
    simpl. rewrite filter_comm, C. reflexivity.
Qed.

Lemma send_stops_typing_witness :
  typingActive helloTyped = true
  /\ count isTypingStop (emitted handleSendMessage helloTyped) = 1
  /\ typingActive (exec handleSendMessage helloTyped) = false.
Proof.
  split; [reflexivity|].
  destruct (@send_stops_typing helloTyped) as (_ & H1 & _ & H2 & _);
    try reflexivity.
  split; assumption.
Defined.

(** ** C4: the history timeout *)

Lemma setIsLoading_off (s : Screen) : isLoading s = false -> setIsLoading false s = s.
Proof. destruct s; simpl; intros ->; reflexivity. Qed.

(** With the loading flag off, timer callbacks leave the screen as it is. *)
Lemma runCallbacks_idle (ts : list Timer) (s : Screen) :
  isLoading s = false -> exec (runCallbacks ts) s = s.
Proof.
  intro L. induction ts as [|t ts IH]; [reflexivity|].
  simpl runCallbacks. rewrite exec_bind.
  assert (E : exec (runCallback (callback t)) s = s).
  { destruct (callback t) as [[|]|uid rid]; handler;
      [now apply setIsLoading_off | reflexivity |].
    destruct (truthy uid && truthy rid); reflexivity. }
  now rewrite E.
Qed.

Lemma runCallback_loading (cb : Callback) (s : Screen) :
  isLoading (exec (runCallback cb) s)
  = match cb with historyTimeout true => false | _ => isLoading s end.
Proof.
  destruct cb as [[|]|uid rid]; handler; try reflexivity.
  destruct (truthy uid && truthy rid); reflexivity.
Qed.

Lemma runCallbacks_loading_off (ts : list Timer) (s : Screen) :
  isLoading s = false -> isLoading (exec (runCallbacks ts) s) = false.
Proof. intro L. now rewrite runCallbacks_idle. Qed.

(** A due history timeout that captured [true] turns the flag off. *)
Lemma runCallbacks_fires (t : Timer) (ts : list Timer) (s : Screen) :
  In t ts -> callback t = historyTimeout true ->
  isLoading (exec (runCallbacks ts) s) = false.
Proof.
  intros Hin Hc. revert s. induction ts as [|u ts IH]; intro s; [contradiction|].
  simpl runCallbacks. rewrite exec_bind.
  destruct Hin as [->|Hin]; [|now apply IH].
  apply runCallbacks_loading_off. now rewrite runCallback_loading, Hc.
Qed.

(** No handler turns the loading flag back on. *)
Lemma dispatch_loading_off (e : Event) (s : Screen) :
  isLoading s = false -> isLoading (exec (dispatch e) s) = false.
Proof.
  intro L. destruct e as [ | m | d | d | d | text | | dt].
  - rewrite exec_Mounted, setupChat_eq.
    destruct (truthy (userId s) && truthy (rideId s)); exact L.
  - simpl dispatch. handler. destruct (SenderType_eqb _ _); exact L.
  - simpl dispatch. destruct d as [[[ms|]]|]; reflexivity.
  - simpl dispatch. handler. destruct (SenderType_eqb _ _); exact L.
  - exact L.
  - rewrite exec_ChangeText, handleTyping_eq. exact L.
  - rewrite exec_PressSend, handleSendMessage_eq.
    destruct (truthy (trim (newMessage s)) && truthy (userId s) && truthy (rideId s));
      exact L.
  - simpl dispatch. rewrite exec_elapse. now apply runCallbacks_loading_off.
Qed.

Lemma run_loading_off (es : list Event) (s : Screen) :
  isLoading s = false -> isLoading (exec (run es) s) = false.
Proof.
  revert s; induction es as [|e es IH]; intros s L; [exact L|].
  rewrite exec_run_cons. now apply IH, dispatch_loading_off.
Qed.

(** The flag is turned off by one event of a run when it was on before and
    is off after, and by none otherwise. *)
Lemma clearings_eq (es : list Event) (s : Screen) :
  clearings s es
  = if isLoading s && negb (isLoading (exec (run es) s)) then 1 else 0.
Proof.
  revert s; induction es as [|e es IH]; intro s.
  - simpl. change (exec (ret tt) s) with s. now destruct (isLoading s).
  - simpl clearings. rewrite IH, exec_run_cons.
    destruct (isLoading s) eqn:L; simpl.
    + destruct (isLoading (exec (dispatch e) s)) eqn:L'; simpl; [reflexivity|].
      now rewrite (run_loading_off es _ L').
    + rewrite (dispatch_loading_off e _ L). reflexivity.
Qed.

Lemma dispatch_now (e : Event) (s : Screen) :
  now (exec (dispatch e) s)
  = (now s + match e with Elapse dt => dt | _ => 0 end)%N.
Proof.
  destruct e as [ | m | d | d | d | text | | dt]; rewrite ?N.add_0_r.
  - rewrite exec_Mounted, setupChat_eq.
    destruct (truthy (userId s) && truthy (rideId s)); reflexivity.
  - simpl dispatch. handler. destruct (SenderType_eqb _ _); reflexivity.
  - simpl dispatch. destruct d as [[[ms|]]|]; reflexivity.
  - simpl dispatch. handler. destruct (SenderType_eqb _ _); reflexivity.
  - reflexivity.
  - rewrite exec_ChangeText, handleTyping_eq. reflexivity.
  - rewrite exec_PressSend, handleSendMessage_eq.
    destruct (truthy (trim (newMessage s)) && truthy (userId s) && truthy (rideId s));
      reflexivity.
  - simpl dispatch. rewrite exec_elapse.
    match goal with |- context [exec (runCallbacks ?l) ?s'] =>
      destruct (runCallbacks_frame l s') as (_ & _ & _ & _ & T & _) end.
    now rewrite T.
Qed.

Lemma run_now (es : list Event) (s : Screen) :
  now (exec (run es) s) = (now s + elapsed es)%N.
Proof.
  revert s; induction es as [|e es IH]; intro s.
  - simpl. change (exec (ret tt) s) with s. lia.
  - rewrite exec_run_cons, IH, dispatch_now. destruct e; simpl elapsed; lia.
Qed.

(** A pending history timeout survives every event until it fires. *)
Lemma armed_dispatch (deadline : N) (e : Event) (s : Screen) :
  wf s -> armed deadline s -> armed deadline (exec (dispatch e) s).
Proof.
  intros W [L|(t & Hin & Hc & Hd)]; [left; now apply dispatch_loading_off|].
  assert (Hnt : typingTimeoutRef s <> Some (handle t)).
  { intro R. apply (wf_typing W t Hin) in R. unfold isTypingTimer in R.
    rewrite Hc in R. discriminate. }
  destruct e as [ | m | d | d | d | text | | dt].
  - rewrite exec_Mounted, setupChat_eq.
    destruct (truthy (userId s) && truthy (rideId s)); right; exists t; simpl;
      [rewrite In_enqueue|]; auto.
  - right. exists t. simpl dispatch. handler.
    destruct (SenderType_eqb _ _); auto.
  - left. simpl dispatch. destruct d as [[[ms|]]|]; reflexivity.
  - right. exists t. simpl dispatch. handler.
    destruct (SenderType_eqb _ _); auto.
  - right. exists t. auto.
  - right. exists t. rewrite exec_ChangeText, handleTyping_eq. simpl.
    rewrite In_enqueue, In_cancel. auto.
  - right. exists t. rewrite exec_PressSend, handleSendMessage_eq.
    destruct (truthy (trim (newMessage s)) && truthy (userId s) && truthy (rideId s));
      simpl; rewrite ?In_cancel; auto.
  - simpl dispatch. rewrite exec_elapse.
    destruct (isDue (now s + dt) t) eqn:Due.
    + left. apply runCallbacks_fires with (t := t); [|assumption].
      apply filter_In. auto.
    + right. exists t.
      match goal with |- context [exec (runCallbacks ?l) ?s'] =>
        destruct (runCallbacks_frame l s') as (_ & _ & _ & _ & _ & Q & _) end.
      rewrite Q. simpl. rewrite filter_In, Due. auto.
Qed.

(** Once the clock has reached the deadline the loading flag is off. *)
Lemma timeout_fires (deadline : N) (es : list Event) (s : Screen) :
  wf s -> armed deadline s -> (deadline <= now s + elapsed es)%N ->
  isLoading (exec (run es) s) = false.
Proof.
  intros W A Hle.
  assert (H : wf (exec (run es) s) /\ armed deadline (exec (run es) s)).
  { clear Hle. revert s W A. induction es as [|e es IH]; intros s W A.
    - change (exec (run []) s) with s. auto.
    - rewrite exec_run_cons. apply IH; [apply wf_dispatch | apply armed_dispatch]; auto. }
  destruct H as [W' [L|(t & Hin & _ & Hd)]]; [exact L|].
  pose proof (wf_due W' t Hin) as Hlt. rewrite run_now in Hlt. lia.
Qed.

(** Callbacks of typing timers leave the loading flag alone. *)
Lemma runCallbacks_typing_only (ts : list Timer) (s : Screen) :
  (forall t, In t ts -> isTypingTimer t = true) ->
  isLoading (exec (runCallbacks ts) s) = isLoading s.
Proof.
  revert s; induction ts as [|t ts IH]; intros s H; [reflexivity|].
  simpl runCallbacks. rewrite exec_bind, IH by (intros; apply H; now right).
  rewrite runCallback_loading.
  specialize (H t (or_introl eq_refl)). unfold isTypingTimer in H.
  now destruct (callback t).
Qed.

(** Short of the deadline, and with no snapshot, the flag stays on: no
    history timeout is due before [deadline]. *)
Lemma loading_until_deadline (deadline : N) (es : list Event) (s : Screen) :
  isLoading s = true ->
  truthy (userId s) = true -> truthy (rideId s) = true ->
  (forall t, In t (pending s) -> isTypingTimer t = false -> (deadline <= due t)%N) ->
  (deadline <= now s + 10000)%N ->
  existsb isHistory es = false ->
  (now s + elapsed es < deadline)%N ->
  isLoading (exec (run es) s) = true.
Proof.
  revert s; induction es as [|e es IH]; intros s L Hu Hr Q D0 H Hlt; [exact L|].
  simpl in H. apply orb_false_iff in H as [He Hes].
  rewrite exec_run_cons.
  destruct (dispatch_ids e s) as [U R]. pose proof (dispatch_now e s) as T.
  assert (Hlt' : (now (exec (dispatch e) s) + elapsed es < deadline)%N)
    by (rewrite T; destruct e; simpl elapsed in Hlt; lia).
  assert (D0' : (deadline <= now (exec (dispatch e) s) + 10000)%N)
    by (rewrite T; lia).
  apply IH; try congruence; try assumption; clear IH.
  - destruct e as [ | m | d | d | d | text | | dt]; try discriminate.
    + rewrite exec_Mounted, setupChat_eq, Hu, Hr. exact L.
    + simpl dispatch. handler. destruct (SenderType_eqb _ _); exact L.
    + simpl dispatch. handler. destruct (SenderType_eqb _ _); exact L.
    + exact L.
    + rewrite exec_ChangeText, handleTyping_eq. exact L.
    + rewrite exec_PressSend, handleSendMessage_eq.
      destruct (truthy (trim (newMessage s)) && truthy (userId s) && truthy (rideId s));
        exact L.
    + simpl dispatch. rewrite exec_elapse, runCallbacks_typing_only; [exact L|].
      intros t [Hin Hdue]%filter_In.
      destruct (isTypingTimer t) eqn:E; [reflexivity|].
      specialize (Q t Hin E). unfold isDue in Hdue. apply N.leb_le in Hdue.
      simpl elapsed in Hlt. lia.
  - destruct e as [ | m | d | d | d | text | | dt]; try discriminate.
    + rewrite exec_Mounted, setupChat_eq, Hu, Hr. simpl.
      intros t [->|Hin]%In_enqueue; [simpl; lia | now apply Q].
    + simpl dispatch. handler. destruct (SenderType_eqb _ _); exact Q.
    + simpl dispatch. handler. destruct (SenderType_eqb _ _); exact Q.
    + exact Q.
    + rewrite exec_ChangeText, handleTyping_eq. simpl.
      intros t [->|[Hin _]%In_cancel]%In_enqueue; [discriminate | now apply Q].
    + rewrite exec_PressSend, handleSendMessage_eq.
      destruct (truthy (trim (newMessage s)) && truthy (userId s) && truthy (rideId s));
        [|exact Q].
      simpl. intros t [Hin _]%In_cancel. now apply Q.
    + simpl dispatch. rewrite exec_elapse.
      match goal with |- context [exec (runCallbacks ?l) ?s'] =>
        destruct (runCallbacks_frame l s') as (_ & _ & _ & _ & _ & P & _) end.
      rewrite P. simpl. intros t [Hin _]%filter_In. now apply Q.
Qed.

(** C4, as the spec states it, fails on its last part: a snapshot that
    arrives after the timeout is not merged into the log, it replaces the
    log.  Here the request times out, the message [late] is pushed, and the
    late snapshot [[early]] then drops it. *)
Lemma late_snapshot_replaces_log :
  isLoading (exec (run timedOutThenPushed) screen0) = false
  /\ messages (exec (run timedOutThenPushed) screen0) = [late]
  /\ messages (exec (run (timedOutThenPushed ++ [historyOf [early]])) screen0) = [early]
  /\ ~ In late (messages (exec (run (timedOutThenPushed ++ [historyOf [early]])) screen0)).
Proof.
  repeat split. intros [H|[]]. discriminate H.
Qed.

(** C4 (amended): from the first render of a screen that has its user and
    ride ids, whatever events follow the history request, the loading flag is
    turned off by at most one of them.  With no snapshot the flag stays on
    until ten seconds have passed; once they have passed it is off and
    exactly one event turned it off, snapshot or no snapshot.  A snapshot
    delivered after that replaces the log by its own messages, leaves the
    flag off, sets no timer, and the count stays at one.  And once a snapshot
    has been handled, the passage of time, the timeout firing included, only
    moves the clock and empties the timer queue. *)
Theorem history_timeout (uid rid : JSString) (name : option JSString)
        (es : list Event) :
  truthy uid = true -> truthy rid = true ->
  clearings (initial uid rid name) (Mounted :: es) <= 1
  /\ (existsb isHistory es = false -> (elapsed es <? 10000)%N = true ->
      isLoading (exec (run (Mounted :: es)) (initial uid rid name)) = true)
  /\ ((10000 <=? elapsed es)%N = true ->
      isLoading (exec (run (Mounted :: es)) (initial uid rid name)) = false
      /\ clearings (initial uid rid name) (Mounted :: es) = 1
      /\ forall data,
           messages (exec (run ((Mounted :: es) ++ [ChatHistoryEvent data]))
                          (initial uid rid name))
           = snapshotMessages data
           /\ isLoading (exec (run ((Mounted :: es) ++ [ChatHistoryEvent data]))
                              (initial uid rid name)) = false
           /\ pending (exec (run ((Mounted :: es) ++ [ChatHistoryEvent data]))
                            (initial uid rid name))
              = pending (exec (run (Mounted :: es)) (initial uid rid name))
           /\ clearings (initial uid rid name)
                        ((Mounted :: es) ++ [ChatHistoryEvent data]) = 1)
  /\ (forall (s : Screen) data (after : list Event) (dt : N),
        exec (elapse dt) (exec (run (ChatHistoryEvent data :: after)) s)
        = setRuntime
            (now (exec (run (ChatHistoryEvent data :: after)) s) + dt)
            (filter (fun x => negb (isDue (now (exec (run (ChatHistoryEvent data :: after)) s) + dt) x))
                    (pending (exec (run (ChatHistoryEvent data :: after)) s)))
            (nextHandle (exec (run (ChatHistoryEvent data :: after)) s))
            (exec (run (ChatHistoryEvent data :: after)) s)).
Proof.
  intros Hu Hr. set (s0 := initial uid rid name).
  assert (E1 : exec (dispatch Mounted) s0
               = setRuntime 0 [mkTimer 1 10000 (historyTimeout true)] 2 s0).
  { rewrite exec_Mounted, setupChat_eq. simpl. rewrite Hu, Hr. reflexivity. }
  repeat apply conj.
  - rewrite clearings_eq. destruct (_ && _); lia.
  - intros H Hlt%N.ltb_lt. rewrite exec_run_cons, E1.
    apply loading_until_deadline with (deadline := 10000%N);
      try assumption; try reflexivity; simpl; try lia.
    intros t [<-|[]] _. simpl. lia.
  - intros Hle%N.leb_le.
    assert (Off : isLoading (exec (run (Mounted :: es)) s0) = false).
    { rewrite exec_run_cons.
      apply timeout_fires with (deadline := 10000%N).
      - apply wf_dispatch, wf_initial.
      - right. rewrite E1. simpl.
        eexists. split; [left; reflexivity|]. split; [reflexivity|]. simpl. lia.
      - rewrite E1. simpl. lia. }
    repeat apply conj.
    + exact Off.
    + rewrite clearings_eq, Off. reflexivity.
    + intro data. rewrite run_app. repeat apply conj.
      * rewrite exec_run_cons. change (exec (run []) ?x) with x.
        apply onChatHistory_messages.
      * apply run_loading_off, Off.
      * rewrite exec_run_cons. change (exec (run []) ?x) with x.
        simpl dispatch. destruct data as [[[ms|]]|]; reflexivity.
      * rewrite clearings_eq, run_app, (run_loading_off _ _ Off). reflexivity.
  - intros s data after dt. rewrite exec_elapse.
    assert (Off : isLoading (exec (run (ChatHistoryEvent data :: after)) s) = false).
    { rewrite exec_run_cons. apply run_loading_off.
      simpl dispatch. destruct data as [[[ms|]]|]; reflexivity. }
    rewrite runCallbacks_idle; [reflexivity|exact Off].
Qed.

Lemma history_timeout_witness :
  isLoading (exec (run [Mounted; ChangeText (js "h"); Elapse 4000;
                        ChatMessageEvent early])
                  (initial (js "u1") (js "ride-1") None)) = true
  /\ isLoading (exec (run [Mounted; ChangeText (js "h"); Elapse 4000;
                           ChatMessageEvent early; Elapse 6000])
                     (initial (js "u1") (js "ride-1") None)) = false
  /\ clearings (initial (js "u1") (js "ride-1") None)
               [Mounted; ChangeText (js "h"); Elapse 4000;
                ChatMessageEvent early; Elapse 6000] = 1.
Proof.
  destruct (@history_timeout (js "u1") (js "ride-1") None
              [ChangeText (js "h"); Elapse 4000%N; ChatMessageEvent early]
              eq_refl eq_refl) as (_ & On & _).
  destruct (@history_timeout (js "u1") (js "ride-1") None
              [ChangeText (js "h"); Elapse 4000%N; ChatMessageEvent early; Elapse 6000%N]
              eq_refl eq_refl) as (_ & _ & H & _).
  destruct (H eq_refl) as (H1 & H2 & _).
  split; [exact (On eq_refl eq_refl) | split; assumption].
Defined.

(** ** Beyond the claims: quick replies *)

Lemma sendDraft_eq (text : JSString) (s : Screen) :
  sendDraft text s
  = if truthy (trim text) && truthy (userId s) && truthy (rideId s)
    then (tt,
          setTypingTimeoutRef None
            (setRuntime (now s) (cancel (typingTimeoutRef s) (pending s)) (nextHandle s)
               (setNewMessage [] s)),
          [sendChatMessage (rideId s) (userId s) user (trim text);
           sendTypingStop (rideId s) (userId s) user])
    else (tt, s, []).
Proof.
  unfold sendDraft, clearTimeout, bind, gets, modify, emit, when, ret. simpl.
  destruct (truthy (trim text) && truthy (userId s) && truthy (rideId s));
    simpl; [|reflexivity].
  destruct s as [ms nm dt ld uid rid dn [h|] t q n]; reflexivity.
Qed.

(** [handleSendMessage] is [sendDraft] on the text in the input. *)
Lemma handleSendMessage_sendDraft (s : Screen) :
  handleSendMessage s = sendDraft (newMessage s) s.
Proof. now rewrite handleSendMessage_eq, sendDraft_eq. Qed.

Lemma handleQuickReply_eq (reply : JSString) (s : Screen) :
  handleQuickReply reply s
  = if truthy (trim (newMessage s)) && truthy (userId s) && truthy (rideId s)
    then (tt,
          setTypingTimeoutRef None
            (setRuntime (now s) (cancel (typingTimeoutRef s) (pending s)) (nextHandle s)
               (setNewMessage [] s)),
          [sendChatMessage (rideId s) (userId s) user (trim (newMessage s));
           sendTypingStop (rideId s) (userId s) user])
    else (tt, setNewMessage reply s, []).
Proof.
  unfold handleQuickReply, bind, gets, modify. simpl.
  rewrite sendDraft_eq. simpl.
  destruct (truthy (trim (newMessage s)) && truthy (userId s) && truthy (rideId s));
    reflexivity.
Qed.

(** X1: a tap on a quick reply sends what the input held before the tap,
    never the reply itself: it emits exactly what pressing send would have
    emitted.  The reply ends up in the input only when nothing was sent;
    otherwise the input is emptied and the reply is lost.  The log is not
    touched. *)
Theorem quick_reply_sends_the_draft (reply : JSString) (s : Screen) :
  emitted (handleQuickReply reply) s = emitted handleSendMessage s
  /\ newMessage (exec (handleQuickReply reply) s)
     = (if blank (newMessage s) || negb (truthy (userId s) && truthy (rideId s))
        then reply else [])
  /\ (blank (newMessage s) = false -> truthy (userId s) = true ->
      truthy (rideId s) = true ->
      exec (handleQuickReply reply) s = exec handleSendMessage s)
  /\ messages (exec (handleQuickReply reply) s) = messages s.
Proof.
  unfold emitted, exec. rewrite handleQuickReply_eq, handleSendMessage_eq, truthy_trim.
  destruct (blank (newMessage s)); simpl.
  - repeat split. discriminate.
  - destruct (truthy (userId s)); simpl; [|repeat split; discriminate].
    destruct (truthy (rideId s)); simpl; repeat split; discriminate.
Qed.

(** X2: from a blank input, the first tap on a quick reply only fills the
    input and sends nothing; it is the next tap, on any quick reply, that
    sends the first one's text. *)
Theorem quick_reply_needs_second_tap (first second : JSString) (s : Screen) :
  blank (newMessage s) = true -> blank first = false ->
  truthy (userId s) = true -> truthy (rideId s) = true ->
  emitted (handleQuickReply first) s = []
  /\ newMessage (exec (handleQuickReply first) s) = first
  /\ emitted (handleQuickReply second) (exec (handleQuickReply first) s)
     = [ sendChatMessage (rideId s) (userId s) user (trim first);
         sendTypingStop (rideId s) (userId s) user ]
  /\ newMessage (exec (handleQuickReply second) (exec (handleQuickReply first) s)) = [].
Proof.
  intros B1 B2 Hu Hr.
  assert (E1 : handleQuickReply first s = (tt, setNewMessage first s, []))
    by (rewrite handleQuickReply_eq, truthy_trim, B1; reflexivity).
  unfold emitted, exec. rewrite E1. simpl fst. simpl snd.
  rewrite handleQuickReply_eq. simpl. rewrite truthy_trim, B2, Hu, Hr. simpl.
  repeat split.
Qed.

Lemma quick_reply_needs_second_tap_witness :
  emitted (handleQuickReply (js "Thank you for your help")) screen0 = []
  /\ emitted (handleQuickReply (js "I have a complaint"))
             (exec (handleQuickReply (js "Thank you for your help")) screen0)
     = [ sendChatMessage (js "ride-1") (js "u1") user (js "Thank you for your help");
         sendTypingStop (js "ride-1") (js "u1") user ].
Proof.
  destruct (@quick_reply_needs_second_tap (js "Thank you for your help")
              (js "I have a complaint") screen0 eq_refl eq_refl eq_refl eq_refl)
    as (H1 & _ & H3 & _).
  split; [exact H1 | exact H3].
Defined.

(** ** Beyond the claims: the driver's typing indicator *)

Lemma runCallbacks_isDriverTyping (ts : list Timer) (s : Screen) :
  isDriverTyping (exec (runCallbacks ts) s) = isDriverTyping s.
Proof.
  revert s; induction ts as [|t ts IH]; intro s; [reflexivity|].
  simpl runCallbacks. rewrite exec_bind, IH.
  destruct (callback t) as [[|]|uid rid]; handler; try reflexivity.
  destruct (truthy uid && truthy rid); reflexivity.
Qed.

Lemma dispatch_isDriverTyping (e : Event) (s : Screen) :
  isDriverTyping (exec (dispatch e) s)
  = match e with
    | TypingIndicatorEvent d =>
        if SenderType_eqb (TypingIndicator.senderType d) driver
        then TypingIndicator.isTyping d else isDriverTyping s
    | _ => isDriverTyping s
    end.
Proof.
  destruct e as [ | m | d | d | d | text | | dt].
  - rewrite exec_Mounted, setupChat_eq.
    destruct (truthy (userId s) && truthy (rideId s)); reflexivity.
  - simpl dispatch. handler. destruct (SenderType_eqb _ _); reflexivity.
  - simpl dispatch. destruct d as [[[ms|]]|]; reflexivity.
  - simpl dispatch. handler. destruct (SenderType_eqb _ _); reflexivity.
  - reflexivity.
  - rewrite exec_ChangeText, handleTyping_eq. reflexivity.
  - rewrite exec_PressSend, handleSendMessage_eq.
    destruct (truthy (trim (newMessage s)) && truthy (userId s) && truthy (rideId s));
      reflexivity.
  - simpl dispatch. rewrite exec_elapse. now rewrite runCallbacks_isDriverTyping.
Qed.

(** X3: after any run of events the "Typing..." flag is the one carried by
    the last typing indicator whose sender is the driver, or what it was
    before when there was none.  Typing indicators of the user's own role
    are ignored, and nothing else moves the flag: not a message from the
    driver, not a snapshot, not the passage of time. *)
Theorem driver_typing_is_last_indicator (es : list Event) (s : Screen) :
  isDriverTyping (exec (run es) s)
  = match lastDriverTyping es with
    | Some b => b
    | None => isDriverTyping s
    end.
Proof.
  revert s; induction es as [|e es IH]; intro s; [reflexivity|].
  rewrite exec_run_cons, IH. simpl lastDriverTyping.
  destruct (lastDriverTyping es); [reflexivity|].
  rewrite dispatch_isDriverTyping.
  destruct e as [ | m | d | d | d | text | | dt]; try reflexivity.
  destruct (SenderType_eqb _ _); reflexivity.
Qed.

(** ** Beyond the claims: leaving the screen *)

Lemma cleanupListeners_eq (s : Screen) :
  cleanupListeners s
  = (tt,
     match typingTimeoutRef s with
     | Some _ =>
         setTypingTimeoutRef None
           (setRuntime (now s) (cancel (typingTimeoutRef s) (pending s)) (nextHandle s) s)
     | None => s
     end,
     []).
Proof.
  unfold cleanupListeners, clearTimeout, bind, gets, modify, ret. simpl.
  destruct s as [ms nm dt ld uid rid dn [h|] t q n]; reflexivity.
Qed.

Lemma cancel_keeps_other_timers (s : Screen) :
  wf s ->
  filter (fun t => negb (isTypingTimer t)) (cancel (typingTimeoutRef s) (pending s))
  = filter (fun t => negb (isTypingTimer t)) (pending s).
Proof.
  intro W. destruct (typingTimeoutRef s) as [h|] eqn:R; [|reflexivity].
  simpl. rewrite filter_comm.
  pose proof (wf_typing W) as T. rewrite R in T.
  induction (pending s) as [|t q IH]; [reflexivity|].
  simpl. destruct (isTypingTimer t) eqn:E; simpl.
  - apply IH. intros x Hx. apply T. now right.
  - destruct (Nat.eqb_spec (handle t) h) as [<-|Hne]; simpl.
    + pose proof (proj2 (T t (or_introl eq_refl)) eq_refl). congruence.
    + f_equal. apply IH. intros x Hx. apply T. now right.
Qed.

(** X4: the cleanup cancels the typing-stop timer without sending
    typing-stop, and no typing-stop follows later either, so a user who
    leaves while typing never tells the driver so.  It leaves every other
    pending timer, the history timeout included, in the queue; and running
    it again changes nothing. *)
Theorem cleanup_sends_no_typing_stop (s : Screen) :
  wellFormed s = true ->
  emitted cleanupListeners s = []
  /\ typingTimeoutRef (exec cleanupListeners s) = None
  /\ typingActive (exec cleanupListeners s) = false
  /\ (forall dt, count isTypingStop (emitted (elapse dt) (exec cleanupListeners s)) = 0)
  /\ filter (fun t => negb (isTypingTimer t)) (pending (exec cleanupListeners s))
     = filter (fun t => negb (isTypingTimer t)) (pending s)
  /\ exec cleanupListeners (exec cleanupListeners s) = exec cleanupListeners s.
Proof.
  intros W%wellFormed_wf.
  pose proof (cancel_no_typing W) as C.
  pose proof (cancel_keeps_other_timers W) as K.
  assert (Ex : forall x, exec cleanupListeners x = snd (fst (cleanupListeners x)))
    by reflexivity.
  assert (Ee : emitted cleanupListeners s = snd (cleanupListeners s)) by reflexivity.
  rewrite Ee, !Ex, !cleanupListeners_eq. simpl fst. simpl snd.
  destruct (typingTimeoutRef s) as [h|] eqn:R.
  - simpl in C, K. simpl. repeat apply conj; try reflexivity.
    + unfold typingActive. simpl. now apply existsb_filter_nil.
    + intro dt.
      rewrite emitted_elapse, emitted_runCallbacks, count_stops_typing_timers.
      simpl. rewrite filter_comm, C. reflexivity.
    + exact K.
  - simpl in C. rewrite R. repeat apply conj; try reflexivity; try assumption.
    + unfold typingActive. now apply existsb_filter_nil.
    + intro dt.
      rewrite emitted_elapse, emitted_runCallbacks, count_stops_typing_timers.
      rewrite filter_comm, C. reflexivity.
Qed.

Lemma cleanup_sends_no_typing_stop_witness :
  typingActive helloTyped = true
  /\ emitted cleanupListeners helloTyped = []
  /\ count isTypingStop (emitted (elapse 5000) (exec cleanupListeners helloTyped)) = 0.
Proof.
  split; [reflexivity|].
  destruct (@cleanup_sends_no_typing_stop helloTyped eq_refl) as (H1 & _ & _ & H4 & _).
  split; [exact H1 | exact (H4 5000%N)].
Defined.

(** ** Beyond the claims: the test button *)

Lemma pop_last A (xs : list A) (x : A) : pop (xs ++ [x]) = Some x.
Proof.
  induction xs as [|y xs IH]; [reflexivity|].
  simpl. rewrite IH. now destruct (xs ++ [x]) eqn:E; [apply app_eq_nil in E as [_ E]|].
Qed.

Lemma filter_none A (p : A -> bool) (xs : list A) :
  forallb (fun x => negb (p x)) xs = true -> filter p xs = [].
Proof.
  induction xs as [|x xs IH]; simpl; [reflexivity|].
  destruct (p x); simpl; [discriminate | exact IH].
Qed.

(** X5: the test button sends one notification and nothing else, and leaves
    the screen as it is.  The text it carries is that of the most recent
    message from the driver in the log; when the log has no message from the
    driver, or that message's text is empty, it is the stock sentence. *)
Theorem test_notification_uses_last_driver_message (s : Screen) :
  exec testNotification s = s
  /\ length (emitted testNotification s) = 1
  /\ count isNotification (emitted testNotification s) = 1
  /\ (forall before m after,
        messages s = before ++ m :: after ->
        isDriverMessage m = true ->
        forallb (fun x => negb (isDriverMessage x)) after = true ->
        emitted testNotification s
        = [sendChatNotificationToCurrentUser
             (rideId s) (js "test-pilot-123") (orElse (driverName s) (js "Test Pilot"))
             (if truthy (ChatMessage.message m) then ChatMessage.message m
              else js "I'm on my way to your pickup location")
             (js "text") (js "high") (js "default") 1])
  /\ (forallb (fun x => negb (isDriverMessage x)) (messages s) = true ->
      emitted testNotification s
      = [sendChatNotificationToCurrentUser
           (rideId s) (js "test-pilot-123") (orElse (driverName s) (js "Test Pilot"))
           (js "I'm on my way to your pickup location")
           (js "text") (js "high") (js "default") 1]).
Proof.
  repeat apply conj; try reflexivity.
  - intros before m after Hlog Hm Hafter.
    unfold testNotification, emitted, bind, gets, emit. simpl.
    rewrite Hlog, filter_app. simpl.
    fold (isDriverMessage m). rewrite Hm.
    change (filter _ after) with (filter isDriverMessage after).
    rewrite (filter_none _ _ Hafter), pop_last. reflexivity.
  - intro Hnone.
    unfold testNotification, emitted, bind, gets, emit. simpl.
    change (filter _ (messages s)) with (filter isDriverMessage (messages s)).
    rewrite (filter_none _ _ Hnone). reflexivity.
Qed.

(** ** Beyond the claims: what touches the log, and what is answered *)

Lemma exec_performAll_cons (a : Action) (acts : list Action) (s : Screen) :
  exec (performAll (a :: acts)) s = exec (performAll acts) (exec (perform a) s).
Proof. simpl performAll. now rewrite exec_bind. Qed.

Lemma emitted_performAll_cons (a : Action) (acts : list Action) (s : Screen) :
  emitted (performAll (a :: acts)) s
  = emitted (perform a) s ++ emitted (performAll acts) (exec (perform a) s).
Proof. simpl performAll. now rewrite emitted_bind. Qed.

Lemma perform_keeps_messages (a : Action) (s : Screen) :
  writesLog a = false -> messages (exec (perform a) s) = messages s.
Proof.
  intro H.
  assert (Ex : forall (m : Eff unit) x, exec m x = snd (fst (m x))) by reflexivity.
  destruct a as [e | reply | | | l jwt route]; simpl perform.
  - pose proof (keeps_messages e s) as K.
    destruct e; try discriminate; exact K.
  - rewrite Ex, handleQuickReply_eq.
    destruct (truthy (trim (newMessage s)) && truthy (userId s) && truthy (rideId s));
      reflexivity.
  - reflexivity.
  - rewrite Ex, cleanupListeners_eq. simpl. now destruct (typingTimeoutRef s).
  - unfold getUserId, when. destruct l; reflexivity.
Qed.

(** X6: only the three socket listeners for messages, history snapshots and
    read receipts change the log.  Through any run of the screen's other
    handlers (typing indicators, the wiring effect and its cleanup, the
    user-id effect, keystrokes, sends, quick replies, the test button,
    timers firing) the log stays exactly as it was. *)
Theorem only_listeners_change_log (acts : list Action) (s : Screen) :
  existsb writesLog acts = false ->
  messages (exec (performAll acts) s) = messages s.
Proof.
  revert s; induction acts as [|a acts IH]; intros s H; [reflexivity|].
  simpl in H. apply orb_false_iff in H as [Ha Hacts].
  rewrite exec_performAll_cons, IH by assumption.
  now apply perform_keeps_messages.
Qed.

Lemma only_listeners_change_log_witness :
  messages
    (exec (performAll
             [Dispatch Mounted;
              Dispatch (TypingIndicatorEvent (TypingIndicator.Build driver true));
              Dispatch (ChangeText (js "hi")); TapQuickReply (js "I have a complaint");
              TapTestNotification; Dispatch PressSend; Dispatch (Elapse 10000);
              CleanupEffect; UserIdEffect true None None; Dispatch Mounted])
          (exec (onChatMessage hiFromDriver) screen0))
  = messages (exec (onChatMessage hiFromDriver) screen0).
Proof. apply only_listeners_change_log. reflexivity. Defined.

Lemma count_callbacks (p : Command -> bool) (ts : list Timer) :
  (forall rid uid who, p (sendTypingStop rid uid who) = false) ->
  count p (flat_map (fun t => callbackEmits (callback t)) ts) = 0.
Proof.
  intro Hp. induction ts as [|t ts IH]; [reflexivity|].
  simpl. rewrite count_app, IH.
  destruct (callback t) as [c|uid rid]; simpl; [reflexivity|].
  destruct (truthy uid && truthy rid); [|reflexivity].
  unfold count. simpl. now rewrite Hp.
Qed.

Lemma dispatch_answers (e : Event) (s : Screen) :
  count isMarkRead (emitted (dispatch e) s) = (if isDriverPush e then 1 else 0)
  /\ count isNotification (emitted (dispatch e) s) = (if isDriverPush e then 1 else 0).
Proof.
  assert (Ee : forall (m : Eff unit) x, emitted m x = snd (m x)) by reflexivity.
  destruct e as [ | m | d | d | d | text | | dt]; simpl dispatch.
  - rewrite Ee, setupChat_eq.
    destruct (truthy (userId s) && truthy (rideId s)); split; reflexivity.
  - simpl isDriverPush. handler. destruct (SenderType_eqb _ _); split; reflexivity.
  - destruct d as [[[ms|]]|]; split; reflexivity.
  - handler. destruct (SenderType_eqb _ _); split; reflexivity.
  - split; reflexivity.
  - rewrite Ee, handleTyping_eq. simpl.
    destruct ((length text =? 1) && truthy (userId s) && truthy (rideId s));
      split; reflexivity.
  - rewrite Ee, handleSendMessage_eq.
    destruct (truthy (trim (newMessage s)) && truthy (userId s) && truthy (rideId s));
      split; reflexivity.
  - rewrite emitted_elapse, emitted_runCallbacks.
    split; apply count_callbacks; reflexivity.
Qed.

Lemma perform_answers (a : Action) (s : Screen) :
  count isMarkRead (emitted (perform a) s) = (if isDriverPushAction a then 1 else 0)
  /\ count isNotification (emitted (perform a) s)
     = (if isDriverPushAction a then 1 else 0) + (if isTestTap a then 1 else 0).
Proof.
  assert (Ee : forall (m : Eff unit) x, emitted m x = snd (m x)) by reflexivity.
  destruct a as [e | reply | | | l jwt route]; simpl perform.
  - destruct (dispatch_answers e s) as [-> ->]. simpl.
    destruct (isDriverPush e); split; reflexivity.
  - rewrite Ee, handleQuickReply_eq.
    destruct (truthy (trim (newMessage s)) && truthy (userId s) && truthy (rideId s));
      split; reflexivity.
  - split; reflexivity.
  - rewrite Ee, cleanupListeners_eq. split; reflexivity.
  - unfold getUserId, when. destruct l; split; reflexivity.
Qed.

(** X7: over any run of the screen's handlers (listeners, wiring effect and
    cleanup, user-id effect, keystrokes, sends, quick replies, test button,
    timers) mark-read goes out once for each message pushed by the driver
    and never otherwise; the notification helper is called once for each
    such push and once for each tap on the test button, and at no other
    moment.  A snapshot full of unread driver messages is not acknowledged. *)
Theorem mark_read_once_per_driver_push (acts : list Action) (s : Screen) :
  count isMarkRead (emitted (performAll acts) s)
  = length (filter isDriverPushAction acts)
  /\ count isNotification (emitted (performAll acts) s)
     = length (filter isDriverPushAction acts) + length (filter isTestTap acts).
Proof.
  revert s; induction acts as [|a acts IH]; intro s; [split; reflexivity|].
  rewrite emitted_performAll_cons, !count_app.
  destruct (IH (exec (perform a) s)) as [I1 I2].
  destruct (perform_answers a s) as [D1 D2].
  rewrite I1, I2, D1, D2. simpl filter.
  destruct (isDriverPushAction a), (isTestTap a); simpl; split; lia.
Qed.

Lemma dispatch_requests (e : Event) (s : Screen) :
  count isHistoryRequest (emitted (dispatch e) s)
  = if isMounted e && (truthy (userId s) && truthy (rideId s)) then 1 else 0.
Proof.
  assert (Ee : forall (m : Eff unit) x, emitted m x = snd (m x)) by reflexivity.
  destruct e as [ | m | d | d | d | text | | dt]; simpl dispatch.
  - rewrite Ee, setupChat_eq. simpl.
    destruct (truthy (userId s) && truthy (rideId s)); reflexivity.
  - handler. destruct (SenderType_eqb _ _); reflexivity.
  - destruct d as [[[ms|]]|]; reflexivity.
  - handler. destruct (SenderType_eqb _ _); reflexivity.
  - reflexivity.
  - rewrite Ee, handleTyping_eq. simpl.
    destruct ((length text =? 1) && truthy (userId s) && truthy (rideId s)); reflexivity.
  - rewrite Ee, handleSendMessage_eq.
    destruct (truthy (trim (newMessage s)) && truthy (userId s) && truthy (rideId s));
      reflexivity.
  - rewrite emitted_elapse, emitted_runCallbacks.
    apply count_callbacks; reflexivity.
Qed.

(** X12: the history request goes out once each time the wiring effect runs
    on a screen that has its user and ride ids, and at no other moment; a
    screen missing either id never asks for the history. *)
Theorem history_requested_once_per_mount (es : list Event) (s : Screen) :
  count isHistoryRequest (emitted (run es) s)
  = if truthy (userId s) && truthy (rideId s)
    then length (filter isMounted es) else 0.
Proof.
  revert s; induction es as [|e es IH]; intro s.
  - simpl. now destruct (truthy (userId s) && truthy (rideId s)).
  - rewrite emitted_run_cons, count_app, IH, dispatch_requests.
    destruct (dispatch_ids e s) as [-> ->].
    destruct (truthy (userId s) && truthy (rideId s)); simpl.
    + rewrite andb_true_r. destruct (isMounted e); reflexivity.
    + rewrite andb_false_r. reflexivity.
Qed.

(** ** Beyond the claims: the read indicator *)

(** X13: only the user's own messages carry a read indicator, whatever
    their read flag; and right after a read receipt every indicator on
    screen is the double check mark: no message shows the single one. *)
Theorem read_receipt_shows_double_checks (data : MessagesRead.t) (s : Screen) :
  (forall item, readIndicator item <> None <-> ChatMessage.senderType item = user)
  /\ (forall item,
        In item (messages (exec (onMessagesRead data) s)) ->
        readIndicator item <> Some (js "checkmark")).
Proof.
  split.
  - intro item. unfold readIndicator.
    destruct (ChatMessage.senderType item); simpl; split; congruence.
  - intros item Hin. rewrite onMessagesRead_messages in Hin.
    apply in_map_iff in Hin as (m & <- & _).
    unfold readIndicator. destruct m as [a b c [|] e f g]; simpl; discriminate.
Qed.

(** ** Beyond the claims: how a timestamp is shown *)

Lemma below_In (k : nat) (n : N) : (n < N.of_nat k)%N -> In n (below k).
Proof.
  intro H. unfold below. apply in_map_iff. exists (N.to_nat n).
  split; [apply N2Nat.id|]. apply in_seq. lia.
Qed.

Lemma timesOfDay_In (h m : N) : (h < 24)%N -> (m < 60)%N -> In (h, m) timesOfDay.
Proof.
  intros Hh Hm. unfold timesOfDay. apply in_flat_map. exists h.
  split; [now apply (below_In 24)|].
  apply in_map_iff. exists m. split; [reflexivity | now apply (below_In 60)].
Qed.

Lemma strEq_eq (a b : JSString) : strEq a b = true <-> a = b.
Proof.
  revert b; induction a as [|x a IH]; intros [|y b]; simpl;
    try (split; [discriminate | discriminate]); [tauto|].
  rewrite andb_true_iff, N.eqb_eq, IH. split; [intros [-> ->]; reflexivity|].
  intro E. injection E as -> ->. auto.
Qed.

(** No number printed in the second or third branch begins like
    "Just now". *)
Lemma number_is_not_just_now (n : N) (rest : JSString) :
  (n < 60)%N -> numberToString n ++ rest <> js "Just now".
Proof.
  intro H. apply (below_In 60) in H. revert n H.
  assert (C : forallb (fun n => match numberToString n with
                                | c :: _ => negb (c =? 74)%N
                                | [] => false
                                end) (below 60) = true) by (vm_compute; reflexivity).
  rewrite forallb_forall in C. intros n Hn E. specialize (C n Hn).
  destruct (numberToString n) as [|c cs]; [discriminate|].
  simpl in E. injection E as -> _. discriminate.
Qed.

Lemma whole_minutes_lt (diff k : Z) :
  (diff / 60000 < k)%Z <-> (diff < 60000 * k)%Z.
Proof.
  pose proof (Z.div_mod diff 60000 ltac:(lia)).
  pose proof (Z.mod_pos_bound diff 60000 ltac:(lia)).
  lia.
Qed.

(** X8: a timestamp shows as "Just now" exactly when less than a full
    minute separates it from the present; that includes every timestamp in
    the future, however far. *)
Theorem just_now_iff_under_a_minute (date : Date.t) (nowTime : Z) :
  formatTimestamp date nowTime = js "Just now"
  <-> (nowTime - Date.getTime date < 60000)%Z.
Proof.
  unfold formatTimestamp. cbv zeta.
  set (diff := (nowTime - Date.getTime date)%Z).
  destruct (Z.ltb_spec (diff / 60000) 1) as [L1|L1].
  - split; [intros _|reflexivity]. apply whole_minutes_lt in L1. lia.
  - assert (G : (60000 <= diff)%Z).
    { destruct (Z.lt_ge_cases diff 60000) as [Hlt|]; [|assumption].
      assert (diff / 60000 < 1)%Z by (apply whole_minutes_lt; lia). lia. }
    split; [|lia]. intro E. exfalso.
    destruct (Z.ltb_spec (diff / 60000) 60) as [L2|L2].
    + apply (@number_is_not_just_now (Z.to_N (diff / 60000)) (js "m ago")); [lia|exact E].
    + set (h := Date.getHours date) in *.
      assert (Hd : ((if (h mod 12 =? 0)%N then 12 else h mod 12) < 60)%N).
      { destruct (N.eqb_spec (h mod 12) 0); [lia|].
        pose proof (N.mod_lt h 12). lia. }
      exact (number_is_not_just_now _ Hd E).
Qed.

(** The clock text of the third branch depends on the hour and minute
    only. *)
Lemma formatTimestamp_old (date : Date.t) (nowTime : Z) :
  (3600000 <= nowTime - Date.getTime date)%Z ->
  formatTimestamp date nowTime
  = formatTimestamp (anHourAgo 0 (Date.getHours date, Date.getMinutes date)) 0.
Proof.
  intro H. unfold formatTimestamp, anHourAgo. cbv zeta. simpl Date.getTime.
  simpl Date.getHours. simpl Date.getMinutes.
  assert (L : ~ ((nowTime - Date.getTime date) / 60000 < 60)%Z)
    by (rewrite whole_minutes_lt; lia).
  destruct (Z.ltb_spec ((nowTime - Date.getTime date) / 60000) 1); [lia|].
  destruct (Z.ltb_spec ((nowTime - Date.getTime date) / 60000) 60); [lia|].
  reflexivity.
Qed.

Lemma clock_texts_differ :
  forallb (fun a =>
    forallb (fun b =>
      implb (strEq (snd a) (snd b))
            ((fst (fst a) =? fst (fst b))%N && (snd (fst a) =? snd (fst b))%N))
      (map (fun p => (p, formatTimestamp (anHourAgo 0 p) 0)) timesOfDay))
    (map (fun p => (p, formatTimestamp (anHourAgo 0 p) 0)) timesOfDay) = true.
Proof. vm_compute. reflexivity. Qed.

(** X9: two timestamps an hour old or older show the same text exactly when
    they fall on the same hour and minute of the (local) day: the 12-hour
    text with its AM/PM mark tells all 1440 times of day apart, and it shows
    nothing of the date or of how long ago the message was sent. *)
Theorem old_timestamps_show_time_of_day (d1 d2 : Date.t) (now1 now2 : Z) :
  (3600000 <= now1 - Date.getTime d1)%Z ->
  (3600000 <= now2 - Date.getTime d2)%Z ->
  (Date.getHours d1 < 24)%N -> (Date.getMinutes d1 < 60)%N ->
  (Date.getHours d2 < 24)%N -> (Date.getMinutes d2 < 60)%N ->
  (formatTimestamp d1 now1 = formatTimestamp d2 now2
   <-> Date.getHours d1 = Date.getHours d2 /\ Date.getMinutes d1 = Date.getMinutes d2).
Proof.
  intros O1 O2 H1 M1 H2 M2.
  rewrite (formatTimestamp_old _ _ O1), (formatTimestamp_old _ _ O2).
  split; [|intros [-> ->]; reflexivity].
  intro E. pose proof clock_texts_differ as C.
  rewrite forallb_forall in C.
  specialize (C ((Date.getHours d1, Date.getMinutes d1),
                 formatTimestamp (anHourAgo 0 (Date.getHours d1, Date.getMinutes d1)) 0)).
  rewrite forallb_forall in C.
  specialize (fun Ha => C Ha
    ((Date.getHours d2, Date.getMinutes d2),
     formatTimestamp (anHourAgo 0 (Date.getHours d2, Date.getMinutes d2)) 0)).
  assert (In1 : forall h m, (h < 24)%N -> (m < 60)%N ->
            In ((h, m), formatTimestamp (anHourAgo 0 (h, m)) 0)
               (map (fun p => (p, formatTimestamp (anHourAgo 0 p) 0)) timesOfDay)).
  { intros h m Hh Hm. apply in_map_iff. exists (h, m).
    split; [reflexivity | now apply timesOfDay_In]. }
  specialize (C (In1 _ _ H1 M1) (In1 _ _ H2 M2)). cbn [fst snd] in C.
  apply strEq_eq in E. rewrite E in C. simpl in C.
  apply andb_true_iff in C as [Ch Cm].
  now apply N.eqb_eq in Ch, Cm.
Qed.

Lemma old_timestamps_show_time_of_day_witness :
  formatTimestamp (Date.Build 0 9 5) 3600000 = js "9:05 AM"
  /\ (formatTimestamp (Date.Build 0 9 5) 3600000
      = formatTimestamp (Date.Build 86400000 21 5) 90000000
      <-> 9%N = 21%N /\ 5%N = 5%N).
Proof.
  split; [reflexivity|].
  apply (@old_timestamps_show_time_of_day
           (Date.Build 0 9 5) (Date.Build 86400000 21 5) 3600000 90000000);
    vm_compute; congruence.
Defined.

End ChatScreen.

(** * The ride summary screen: toggling feedback tags *)

Module RideSummaryScreenFacts.
Import RideSummaryScreen.

Lemma includes_In (tags : list JSString) (tag : JSString) :
  includes tags tag = true <-> In tag tags.
Proof.
  unfold includes. rewrite existsb_exists. split.
  - intros (x & Hx & E). apply ChatScreen.strEq_eq in E. now subst.
  - intro H. exists tag. split; [assumption | now apply ChatScreen.strEq_eq].
Qed.

Lemma In_without (tags : list JSString) (tag t : JSString) :
  In t (filter (fun x => negb (strEq x tag)) tags) <-> In t tags /\ t <> tag.
Proof.
  rewrite filter_In, negb_true_iff. split; intros [H1 H2]; split; try assumption.
  - intro E. apply ChatScreen.strEq_eq in E. congruence.
  - destruct (strEq t tag) eqn:E; [|reflexivity]. apply ChatScreen.strEq_eq in E. contradiction.
Qed.

(** X10: a tap on a tag flips whether that tag is selected and leaves the
    selection of every other tag as it was; a selection without repeats
    stays without repeats. *)
Theorem toggle_flips_one_tag (tag : JSString) (selectedTags : list JSString) :
  (In tag (handleTagToggle tag selectedTags) <-> ~ In tag selectedTags)
  /\ (forall t, t <> tag ->
        (In t (handleTagToggle tag selectedTags) <-> In t selectedTags))
  /\ (NoDup selectedTags -> NoDup (handleTagToggle tag selectedTags)).
Proof.
  unfold handleTagToggle.
  destruct (includes selectedTags tag) eqn:I.
  - apply includes_In in I. split; [|split].
    + rewrite In_without. tauto.
    + intros t Ht. rewrite In_without. tauto.
    + apply NoDup_filter.
  - assert (N : ~ In tag selectedTags)
      by (intro H; apply includes_In in H; congruence).
    split; [|split].
    + rewrite in_app_iff. simpl. tauto.
    + intros t Ht. rewrite in_app_iff. simpl. intuition congruence.
    + intro D. apply NoDup_app; [assumption | constructor; [intros [] | constructor] |].
      intros x Hx [<-|[]]. contradiction.
Qed.

(** X11: two taps on a tag that was not selected give back the very list
    there was; two taps on a selected tag keep the same tags selected but
    move that tag to the end of the list (every copy of it, should it occur
    more than once, is replaced by the one at the end). *)
Theorem toggle_twice (tag : JSString) (selectedTags : list JSString) :
  handleTagToggle tag (handleTagToggle tag selectedTags)
  = if includes selectedTags tag
    then filter (fun t => negb (strEq t tag)) selectedTags ++ [tag]
    else selectedTags.
Proof.
  unfold handleTagToggle at 2.
  destruct (includes selectedTags tag) eqn:I.
  - unfold handleTagToggle.
    destruct (includes (filter _ selectedTags) tag) eqn:I'; [|reflexivity].
    apply includes_In, In_without in I' as [_ Hne]. now contradiction Hne.
  - unfold handleTagToggle.
    assert (I' : includes (selectedTags ++ [tag]) tag = true)
      by (apply includes_In, in_app_iff; right; now left).
    rewrite I', filter_app. simpl.
    assert (E : strEq tag tag = true) by now apply ChatScreen.strEq_eq.
    rewrite E. simpl. rewrite app_nil_r.
    apply forallb_filter_id, forallb_forall. intros x Hx.
    apply negb_true_iff. destruct (strEq x tag) eqn:Ex; [|reflexivity].
    apply ChatScreen.strEq_eq in Ex. subst.
    assert (includes selectedTags tag = true) by now apply includes_In.
    congruence.
Qed.

End RideSummaryScreenFacts.
